(** * Dragonfly window classes: [BaseWindow] and [Win32Window]

    A shallow embedding of [dragonfly/windows/base_window.py] and
    [dragonfly/windows/win32_window.py].

    - Python values that can be handed to the window classes are the
      inductive [pyval]; exceptions are the inductive [exn].
    - A window object lives in a heap (a list indexed by address); the two
      class-level dictionaries [_windows_by_id] and [_windows_by_name]
      hold addresses, so that two dictionary entries for one object alias.
    - Methods run in a state-and-exception monad [M].  A raised exception
      keeps the state reached so far, as in Python.
    - Every call into [win32gui] or [ctypes.windll] is recorded in a trace;
      what the operating system answers is an arbitrary function [os] of
      the calls made so far and of the call at hand.

    Python 3 semantics are followed ([six.integer_types] is [(int,)],
    [str] of a text string is the string itself). *)

From stdpp Require Import base option list gmap strings.
From Stdlib Require Import ZArith Lia.

Local Open Scope Z_scope.

#[local] Set Warnings "-clear-no-such-hyp".

(** ** Python values *)

(** The values a caller can pass where the classes take an id, a name or an
    animation name.  A float is kept as mantissa and exponent: none of the
    code below computes with it. *)
Inductive pyval : Type :=
| PyNone
| PyBool (b : bool)
| PyInt (z : Z)
| PyFloat (mantissa exponent : Z)
| PyStr (s : string).

#[global] Instance pyval_eq_dec : EqDecision pyval.
Proof. solve_decision. Defined.

(** [isinstance(v, integer_types)]: [bool] is a subclass of [int]. *)
Definition isinstance_integer (v : pyval) : bool :=
  match v with
  | PyInt _ | PyBool _ => true
  | _ => false
  end.

(** [isinstance(v, string_types)]. *)
Definition isinstance_string (v : pyval) : bool :=
  match v with
  | PyStr _ => true
  | _ => false
  end.

(** The integer an instance of [int] stands for.  [True == 1] and
    [hash(True) == hash(1)], so this is also the dictionary key of an
    integer value. *)
Definition int_value (v : pyval) : option Z :=
  match v with
  | PyInt z => Some z
  | PyBool b => Some (if b then 1 else 0)
  | _ => None
  end.

(** Truth value testing, as done by [if not animate] and [x and True or
    False]. *)
Definition truthy (v : pyval) : bool :=
  match v with
  | PyNone => false
  | PyBool b => b
  | PyInt z => negb (z =? 0)
  | PyFloat m _ => negb (m =? 0)
  | PyStr s => negb (bool_decide (s = EmptyString))
  end.

(** ** Exceptions *)

Inductive exn : Type :=
| TypeError (received : pyval)
| NotImplementedError
| AssertionError
| AttributeError
| KeyError
| IndexError
| ValueError
| OSError (code : Z)
| ArgumentError
| KeyboardInterrupt
| SystemExit
| SystemError.

(** [isinstance(e, Exception)]: what an [except Exception] clause catches.
    [KeyboardInterrupt] and [SystemExit] derive from [BaseException]
    only. *)
Definition is_Exception (e : exn) : bool :=
  match e with
  | KeyboardInterrupt | SystemExit => false
  | _ => true
  end.

Inductive outcome (A : Type) : Type :=
| Ok (a : A)
| Raise (e : exn).
Arguments Ok {A} a.
Arguments Raise {A} e.

Definition raised {A} (o : outcome A) : Prop :=
  match o with Ok _ => False | Raise _ => True end.

(** ** Geometry *)

(** [Rectangle(l, t, w, h)]; the attribute [ltwh] gives the four numbers
    back.  The class itself is in [rectangle.py]. *)
Record Rectangle : Type := mkRectangle { x1 : Z; y1 : Z; dx : Z; dy : Z }.

Definition ltwh (r : Rectangle) : Z * Z * Z * Z := (x1 r, y1 r, dx r, dy r).

(** ** Native calls *)

(** A [c_wchar] is kept as its code unit. *)
Abbreviation wchar := N (only parsing).
Definition NUL : wchar := 0%N.

(** The functions of [win32gui] and of [ctypes.windll] that the methods
    below use, indexed by the type of what they give back to Python.
    The two path queries give back what they wrote into the buffer. *)
Inductive call : Type → Type :=
| GetForegroundWindow : call Z
| EnumWindows : call (list Z)
| GetWindowRect (hwnd : pyval) : call (Z * Z * Z * Z)
| SetForegroundWindow (hwnd : pyval) : call unit
| IsIconic (hwnd : pyval) : call Z
| ShowWindow (hwnd : pyval) (state : Z) : call Z
| MoveWindow (hwnd : pyval) (l t w h : Z) (repaint : Z) : call unit
| GetWindowThreadProcessId (hwnd : pyval) : call Z
| OpenProcess (access inherit pid : Z) : call Z
| QueryFullProcessImageNameW (handle flags size : Z) : call (list wchar)
| GetModuleFileNameExW (handle module size : Z) : call (list wchar)
| CloseHandle (handle : Z) : call Z.

Inductive event : Type :=
| Called {X : Type} (c : call X).

(** The operating system: what a call answers, given the calls made
    before it.  A call can raise. *)
Definition OS : Type := ∀ X : Type, list event → call X → outcome X.

(** [win32con] constants. *)
Definition SW_MAXIMIZE : Z := 3.
Definition SW_MINIMIZE : Z := 6.
Definition SW_RESTORE : Z := 9.

(** ** Program state *)

(** Addresses of objects are natural numbers. *)
Abbreviation addr := nat (only parsing).

(** The instance dictionary of a window object.  An attribute is [None]
    until [__init__] has assigned it. *)
Record object : Type := mkObject {
  _id : option pyval;
  _names : option (gset string)
}.

Definition blank : object := {| _id := None; _names := None |}.

Record pystate : Type := mkState {
  heap : list object;
  _windows_by_name : gmap string addr;
  _windows_by_id : gmap Z addr;
  trace : list event
}.

Definition empty_state : pystate :=
  {| heap := []; _windows_by_name := ∅; _windows_by_id := ∅; trace := [] |}.

Definition with_heap (f : list object → list object) (σ : pystate) : pystate :=
  {| heap := f (heap σ); _windows_by_name := _windows_by_name σ;
     _windows_by_id := _windows_by_id σ; trace := trace σ |}.

Definition with_by_name (f : gmap string addr → gmap string addr)
    (σ : pystate) : pystate :=
  {| heap := heap σ; _windows_by_name := f (_windows_by_name σ);
     _windows_by_id := _windows_by_id σ; trace := trace σ |}.

Definition with_by_id (f : gmap Z addr → gmap Z addr) (σ : pystate) : pystate :=
  {| heap := heap σ; _windows_by_name := _windows_by_name σ;
     _windows_by_id := f (_windows_by_id σ); trace := trace σ |}.

Definition with_trace (f : list event → list event) (σ : pystate) : pystate :=
  {| heap := heap σ; _windows_by_name := _windows_by_name σ;
     _windows_by_id := _windows_by_id σ; trace := f (trace σ) |}.

(** ** The monad *)

Definition M (A : Type) : Type := pystate → outcome A * pystate.

Definition ret {A} (a : A) : M A := λ σ, (Ok a, σ).

Definition raise {A} (e : exn) : M A := λ σ, (Raise e, σ).

Definition bind {A B} (m : M A) (k : A → M B) : M B :=
  λ σ, match m σ with
       | (Ok a, σ') => k a σ'
       | (Raise e, σ') => (Raise e, σ')
       end.

(** stdpp's monad notations: [x ← m; k] and [m ;; k]. *)
#[global] Instance M_ret : MRet M := @ret.
#[global] Instance M_bind : MBind M := λ A B k m, bind m k.

Definition get : M pystate := λ σ, (Ok σ, σ).

Definition modify (f : pystate → pystate) : M unit := λ σ, (Ok tt, f σ).

(** [try: body  except Exception: handler] *)
Definition try_except_Exception {A} (body handler : M A) : M A :=
  λ σ, match body σ with
       | (Ok a, σ') => (Ok a, σ')
       | (Raise e, σ') =>
           if is_Exception e then handler σ' else (Raise e, σ')
       end.

(** [try: body  finally: cleanup].  The cleanup runs whatever the body
    did; when the cleanup itself raises, its exception is the one that
    propagates. *)
Definition try_finally {A} (body : M A) (cleanup : M unit) : M A :=
  λ σ, match body σ with
       | (r, σ') =>
           match cleanup σ' with
           | (Ok _, σ'') => (r, σ'')
           | (Raise e, σ'') => (Raise e, σ'')
           end
       end.

(** ** Objects *)

(** Object creation: a new address with an empty instance dictionary. *)
Definition alloc : M addr :=
  λ σ, (Ok (length (heap σ)), with_heap (λ h, h ++ [blank]) σ).

(** A Python reference always designates a live object; the [SystemError]
    branch is there to make the function total. *)
Definition deref (self : addr) : M object :=
  λ σ, match heap σ !! self with
       | Some o => (Ok o, σ)
       | None => (Raise SystemError, σ)
       end.

Definition getattr {A} (field : object → option A) (self : addr) : M A :=
  o ← deref self;
  match field o with
  | Some a => ret a
  | None => raise AttributeError
  end.

Definition set_id_attr (v : pyval) (o : object) : object :=
  {| _id := Some v; _names := _names o |}.

Definition set_names_attr (s : gset string) (o : object) : object :=
  {| _id := _id o; _names := Some s |}.

Definition setattr (upd : object → object) (self : addr) : M unit :=
  deref self ;; modify (with_heap (alter upd self)).

(** ** Dictionaries and sets keyed by Python values *)

Definition str_value (v : pyval) : option string :=
  match v with
  | PyStr s => Some s
  | _ => None
  end.

(** [d[key] = a] for a key that is an instance of [int]. *)
Definition dict_set_int (key : pyval) (a : addr) (d : gmap Z addr)
    : gmap Z addr :=
  from_option (λ k, <[k:=a]> d) d (int_value key).

(** [d[key] = a] for a key that is a string. *)
Definition dict_set_str (key : pyval) (a : addr) (d : gmap string addr)
    : gmap string addr :=
  from_option (λ k, <[k:=a]> d) d (str_value key).

(** [s.add(key)] for a key that is a string. *)
Definition set_add_str (key : pyval) (s : gset string) : gset string :=
  from_option (λ k, {[k]} ∪ s) s (str_value key).

(** [d[key]] in a dictionary whose keys are strings: [None] stands for
    [KeyError].  A value that is not a string equals none of the keys. *)
Definition dict_get_str {V} (d : gmap string V) (key : pyval) : option V :=
  k ← str_value key; d !! k.

(** ** Classes as method tables *)

(** The methods that [BaseWindow.move] reaches through [self]; a subclass
    overrides them. *)
Record WindowClass : Type := mkClass {
  m_get_position : addr → M Rectangle;
  m_set_position : addr → Rectangle → M unit
}.

(** An entry of [window_movers]: an object with a [move_window(window,
    origin, destination)] method.  The window it receives is an object of
    some class, whose methods it is free to call. *)
Record WindowMover : Type := mkMover {
  move_window : WindowClass → addr → Rectangle → Rectangle → M unit
}.

(** ** base_window.py *)

Module BaseWindow.
Section BaseWindow.

(** [window_movers], imported from [window_movers.py]. *)
Variable window_movers : gmap string WindowMover.

(** The order in which Python iterates over a set of strings. *)
Variable set_iter : gset string → list string.

Definition _set_id (self : addr) (id : pyval) : M unit :=
  if negb (isinstance_integer id) then raise (TypeError id)
  else
    setattr (set_id_attr id) self;;
    modify (with_by_id (dict_set_int id self)).

Definition __init__ (self : addr) (id : pyval) : M unit :=
  setattr (set_id_attr PyNone) self;;
  _set_id self id;;
  setattr (set_names_attr ∅) self.

(** [BaseWindow(id)] *)
Definition new (id : pyval) : M addr :=
  self ← alloc;
  __init__ self id;;
  mret self.

(** The [id] property, and [handle] and [_handle] which read the same
    attribute; [id] and [handle] are both set through [_set_id]. *)
Definition id (self : addr) : M pyval := getattr _id self.
Definition handle (self : addr) : M pyval := getattr _id self.
Definition _handle (self : addr) : M pyval := getattr _id self.
Definition set_id (self : addr) (value : pyval) : M unit :=
  _set_id self value.
Definition set_handle (self : addr) (value : pyval) : M unit :=
  _set_id self value.

Definition _get_name (self : addr) : M pyval :=
  names ← getattr _names self;
  if bool_decide (names = ∅) then mret PyNone
  else match set_iter names with
       | name :: _ => mret (PyStr name)
       | [] => mret PyNone
       end.

Definition _set_name (self : addr) (name : pyval) : M unit :=
  if negb (isinstance_string name) then raise AssertionError
  else
    names ← getattr _names self;
    setattr (set_names_attr (set_add_str name names)) self;;
    modify (with_by_name (dict_set_str name self)).

Definition get_position (self : addr) : M Rectangle :=
  raise NotImplementedError.

Definition set_position (self : addr) (rectangle : Rectangle) : M unit :=
  raise NotImplementedError.

Definition move (cls : WindowClass) (self : addr) (rectangle : Rectangle)
    (animate : pyval) : M unit :=
  if negb (truthy animate) then cls.(m_set_position) self rectangle
  else
    match dict_get_str window_movers animate with
    | None => cls.(m_set_position) self rectangle
    | Some window_mover =>
        position ← cls.(m_get_position) self;
        window_mover.(move_window) cls self position rectangle
    end.

End BaseWindow.

Definition class : WindowClass :=
  {| m_get_position := get_position;
     m_set_position := set_position |}.

End BaseWindow.

(** ** win32_window.py *)

(** [buffer = (c_wchar * n)()] followed by a native call that writes
    [written] from the start of the buffer: the array keeps its length
    and is zero where nothing was written. *)
Definition fill_buffer (n : nat) (written : list wchar) : list wchar :=
  take n (written ++ replicate n NUL).

(** [buffer.index("\0")]: [None] stands for [ValueError]. *)
Fixpoint index_NUL (buffer : list wchar) : option nat :=
  match buffer with
  | [] => None
  | c :: rest => if (c =? NUL)%N then Some 0%nat else S <$> index_NUL rest
  end.

(** [buffer = buffer[:]; buffer = buffer[:buffer.index("\0")]] *)
Definition upto_NUL (buffer : list wchar) : M (list wchar) :=
  match index_NUL buffer with
  | Some i => mret (take i buffer)
  | None => raise ValueError
  end.

Module Win32Window.
Section Win32Window.

Variable os : OS.

(** [monitor.py] and [rectangle.py]: the monitor list, a monitor's
    rectangle, a rectangle's centre and the containment test. *)
Variable Monitor : Type.
Variable Point : Type.
Variable monitors : list Monitor.
Variable rectangle : Monitor → Rectangle.
Variable center : Rectangle → Point.
Variable contains : Rectangle → Point → bool.

(** A call of a [win32gui] or [windll] function: the answer is the
    operating system's, and the call is appended to the trace. *)
Definition native {X} (c : call X) : M X :=
  λ σ, (os X (trace σ) c, with_trace (λ t, t ++ [Called c]) σ).

Definition __init__ (self : addr) (handle : pyval) : M unit :=
  BaseWindow.__init__ self handle.

(** [Win32Window(handle)] *)
Definition new (handle : pyval) : M addr :=
  self ← alloc;
  __init__ self handle;;
  mret self.

Definition get_foreground : M addr :=
  handle ← native GetForegroundWindow;
  σ ← get;
  match _windows_by_id σ !! handle with
  | Some window => mret window
  | None => new (PyInt handle)
  end.

(** [EnumWindows(function, argument)] calls [function(handle, argument)]
    for each top-level window in turn; an exception in the callback ends
    the enumeration. *)
Fixpoint enumerate (function : Z → list addr → M (list addr))
    (handles : list Z) (argument : list addr) : M (list addr) :=
  match handles with
  | [] => mret argument
  | handle :: rest =>
      argument' ← function handle argument;
      enumerate function rest argument'
  end.

Definition get_all_windows : M (list addr) :=
  let function (handle : Z) (argument : list addr) : M (list addr) :=
    window ← new (PyInt handle);
    mret (argument ++ [window]) in
  handles ← native EnumWindows;
  enumerate function handles [].

Definition _get_rect (self : addr) : M (Z * Z * Z * Z) :=
  h ← BaseWindow._handle self; native (GetWindowRect h).

Definition _set_foreground (self : addr) : M unit :=
  h ← BaseWindow._handle self; native (SetForegroundWindow h).

(** [test(self._handle) and True or False] *)
Definition is_minimized (self : addr) : M bool :=
  h ← BaseWindow._handle self;
  r ← native (IsIconic h);
  mret (truthy (PyInt r)).

Definition _win32gui_show_window (state : Z) (self : addr) : M Z :=
  h ← BaseWindow._handle self; native (ShowWindow h state).

Definition minimize : addr → M Z := _win32gui_show_window SW_MINIMIZE.
Definition maximize : addr → M Z := _win32gui_show_window SW_MAXIMIZE.
Definition restore : addr → M Z := _win32gui_show_window SW_RESTORE.

(** The lines of the [try] block that use the newer function. *)
Definition query_full_process_image_name (handle : Z) : M (list wchar) :=
  let buffer_len := 256 in
  written ← native (QueryFullProcessImageNameW handle 0 buffer_len);
  upto_NUL (fill_buffer (Z.to_nat buffer_len) written).

(** The lines of the [except] block. *)
Definition get_module_file_name_ex (handle : Z) : M (list wchar) :=
  let buffer_len := 256 in
  written ← native (GetModuleFileNameExW handle 0 buffer_len);
  upto_NUL (fill_buffer (Z.to_nat buffer_len) written).

Definition _get_window_module (self : addr) : M (list wchar) :=
  h ← BaseWindow._handle self;
  pid ← native (GetWindowThreadProcessId h);
  handle ← native (OpenProcess 0x0410 0 pid);
  buffer ←
    try_finally
      (try_except_Exception
         (query_full_process_image_name handle)
         (get_module_file_name_ex handle))
      (native (CloseHandle handle);; mret tt);
  mret buffer.

Definition get_position (self : addr) : M Rectangle :=
  '(l, t, r, b) ← _get_rect self;
  let w := r - l in
  let h := b - t in
  mret (mkRectangle l t w h).

(** [assert isinstance(rectangle, Rectangle)] holds by typing. *)
Definition set_position (self : addr) (rectangle : Rectangle) : M unit :=
  let '(l, t, w, h) := ltwh rectangle in
  hwnd ← BaseWindow._handle self;
  native (MoveWindow hwnd l t w h 1).

(** The [for] loop of [get_containing_monitor]. *)
Fixpoint first_containing (center : Point) (ms : list Monitor)
    : option Monitor :=
  match ms with
  | [] => None
  | monitor :: rest =>
      if contains (rectangle monitor) center then Some monitor
      else first_containing center rest
  end.

Definition get_containing_monitor (self : addr) : M Monitor :=
  position ← get_position self;
  let center := center position in
  match first_containing center monitors with
  | Some monitor => mret monitor
  | None =>
      (* Fall through, return first monitor. *)
      match monitors !! 0%nat with
      | Some monitor => mret monitor
      | None => raise IndexError
      end
  end.

Definition set_foreground (self : addr) : M unit :=
  minimized ← is_minimized self;
  (if (minimized : bool) then restore self;; mret tt else mret tt);;
  _set_foreground self.

Definition class : WindowClass :=
  {| m_get_position := get_position;
     m_set_position := set_position |}.

End Win32Window.
End Win32Window.

(** ** Definitions used to state the properties *)

(** A window that [__init__] has completed on. *)
Definition initialised (v : pyval) (names : gset string) : object :=
  {| _id := Some v; _names := Some names |}.

(** The state after [BaseWindow(v)] (or [Win32Window(v)]) for an integer
    [v]: one more object, one more registry entry. *)
Definition constructed (v : pyval) (σ : pystate) : pystate :=
  {| heap := heap σ ++ [initialised v ∅];
     _windows_by_name := _windows_by_name σ;
     _windows_by_id := dict_set_int v (length (heap σ)) (_windows_by_id σ);
     trace := trace σ |}.

(** The handle registry after wrappers for [handles] were constructed in
    turn at the addresses [n], [n + 1], ... *)
Fixpoint register_all (n : addr) (handles : list Z) (d : gmap Z addr)
    : gmap Z addr :=
  match handles with
  | [] => d
  | h :: rest => register_all (S n) rest (<[h:=n]> d)
  end.

(** What a path query that answered [answer] leaves in [buffer], or the
    exception its lines end with. *)
Definition path_result (answer : outcome (list wchar)) : outcome (list wchar) :=
  match answer with
  | Ok written =>
      let buffer := fill_buffer 256 written in
      match index_NUL buffer with
      | Some i => Ok (take i buffer)
      | None => Raise ValueError
      end
  | Raise e => Raise e
  end.

(** [m] is the first monitor of [ms] whose rectangle contains [c]. *)
Definition first_monitor_containing {Monitor Point : Type}
    (rectangle : Monitor → Rectangle) (contains : Rectangle → Point → bool)
    (c : Point) (ms : list Monitor) (m : Monitor) : Prop :=
  ∃ before after,
    ms = before ++ m :: after ∧
    contains (rectangle m) c = true ∧
    Forall (λ m', contains (rectangle m') c = false) before.

(** *** Concrete instances *)

(** An operating system with one minimised foreground window [7], two
    top-level windows, and no [QueryFullProcessImageNameW] (as before
    Windows Vista); the older query writes ["a.exe"]. *)
Definition sample_os (iconic : Z) : OS :=
  λ X _ c,
    match c in call X return outcome X with
    | GetForegroundWindow => Ok 7
    | EnumWindows => Ok [7; 8]
    | GetWindowRect _ => Ok (10, 20, 110, 80)
    | SetForegroundWindow _ => Ok tt
    | IsIconic _ => Ok iconic
    | ShowWindow _ _ => Ok 1
    | MoveWindow _ _ _ _ _ _ => Ok tt
    | GetWindowThreadProcessId _ => Ok 4242
    | OpenProcess _ _ _ => Ok 88
    | QueryFullProcessImageNameW _ _ _ => Raise AttributeError
    | GetModuleFileNameExW _ _ _ => Ok [97; 46; 101; 120; 101]%N
    | CloseHandle _ => Ok 1
    end.

(** A state with one window of handle [7], at address [0]. *)
Definition one_window : pystate := constructed (PyInt 7) empty_state.

(** A window mover that moves in one step. *)
Definition direct_mover : WindowMover :=
  {| move_window := λ cls window _ destination,
       cls.(m_set_position) window destination |}.

(** A window mover that leaves the window where it is. *)
Definition idle_mover : WindowMover :=
  {| move_window := λ _ _ _ _, mret tt |}.

Definition sample_rectangle : Rectangle := mkRectangle 0 0 640 480.

(** Two monitors side by side; points are pairs and the containment test
    is half-open. *)
Definition sample_monitors : list Rectangle :=
  [mkRectangle 0 0 100 100; mkRectangle 100 0 100 100].

Definition sample_center (r : Rectangle) : Z * Z :=
  (x1 r + dx r / 2, y1 r + dy r / 2).

Definition sample_contains (r : Rectangle) (p : Z * Z) : bool :=
  (x1 r <=? p.1) && (p.1 <? x1 r + dx r) &&
  (y1 r <=? p.2) && (p.2 <? y1 r + dy r).

(** Whether the trace consists of one [MoveWindow] call. *)
Definition only_MoveWindow (t : list event) : bool :=
  match t with
  | [Called c] =>
      match c with
      | MoveWindow _ _ _ _ _ _ => true
      | _ => false
      end
  | _ => false
  end.

(** The methods of [base_window.py] that write to a window object or to
    a registry, as a caller may invoke them one after the other; an
    exception ends the statement that raised it, not the program. *)
Inductive statement : Type :=
| Construct (id : pyval)
| AssignId (window : addr) (value : pyval)
| AssignName (window : addr) (name : pyval).

Definition execute (s : statement) (σ : pystate) : pystate :=
  match s with
  | Construct id => (BaseWindow.new id σ).2
  | AssignId window value => (BaseWindow.set_id window value σ).2
  | AssignName window name => (BaseWindow._set_name window name σ).2
  end.

Definition execute_all (program : list statement) (σ : pystate) : pystate :=
  foldl (λ σ s, execute s σ) σ program.

(** The names that the statements of [program] assign to [window]. *)
Fixpoint names_assigned (window : addr) (program : list statement)
    : gset string :=
  match program with
  | [] => ∅
  | AssignName w (PyStr name) :: rest =>
      if decide (w = window) then {[name]} ∪ names_assigned window rest
      else names_assigned window rest
  | _ :: rest => names_assigned window rest
  end.

(** [sample_os] with the newer path query interrupted from the
    keyboard. *)
Definition interrupted_os : OS :=
  λ X t c,
    match c in call X return outcome X with
    | QueryFullProcessImageNameW _ _ _ => Raise KeyboardInterrupt
    | c' => sample_os 0 _ t c'
    end.

(** [sample_os] with [OpenProcess] failing (access denied). *)
Definition denying_os : OS :=
  λ X t c,
    match c in call X return outcome X with
    | OpenProcess _ _ _ => Raise (OSError 5)
    | c' => sample_os 0 _ t c'
    end.

(** The id that [window] has after the statements of [program], if it
    had [current] before: the last integer assigned to it. *)
Fixpoint last_id_assigned (window : addr) (program : list statement)
    (current : pyval) : pyval :=
  match program with
  | [] => current
  | AssignId w v :: rest =>
      if decide (w = window) then
        last_id_assigned window rest
          (if isinstance_integer v then v else current)
      else last_id_assigned window rest current
  | _ :: rest => last_id_assigned window rest current
  end.

(** *** Frames, invariants and runs *)

(** The two states have the same objects and the same registries. *)
Definition same_objects (σ σ' : pystate) : Prop :=
  heap σ' = heap σ ∧
  _windows_by_name σ' = _windows_by_name σ ∧
  _windows_by_id σ' = _windows_by_id σ.

(** A computation that leaves the objects and the registries alone and
    only adds native calls to the trace. *)
Definition trace_only {A} (m : M A) : Prop :=
  ∀ σ, same_objects σ (m σ).2 ∧ ∃ t, trace (m σ).2 = trace σ ++ t.

(** What the registries and the objects of a state have to do with each
    other: a window that [__init__] has completed on has an integer id;
    an entry of the handle registry designates an object with an integer
    id; an entry of the name registry designates a window that carries
    that name. *)
Definition well_formed (σ : pystate) : Prop :=
  (∀ a o, heap σ !! a = Some o → is_Some (_names o) →
          ∃ v, _id o = Some v ∧ isinstance_integer v = true) ∧
  (∀ k a, _windows_by_id σ !! k = Some a →
          ∃ o v, heap σ !! a = Some o ∧ _id o = Some v ∧
                 isinstance_integer v = true) ∧
  (∀ s a, _windows_by_name σ !! s = Some a →
          ∃ o names, heap σ !! a = Some o ∧ _names o = Some names ∧
                     s ∈ names).

(** [σ'] has everything [σ] has: the keys of both registries, the
    objects (at the same addresses), each window's names, the calls made. *)
Definition extends (σ σ' : pystate) : Prop :=
  dom (_windows_by_id σ) ⊆ dom (_windows_by_id σ') ∧
  dom (_windows_by_name σ) ⊆ dom (_windows_by_name σ') ∧
  (∀ a o, heap σ !! a = Some o →
          ∃ o', heap σ' !! a = Some o' ∧
                ∀ names, _names o = Some names →
                         ∃ names', _names o' = Some names' ∧ names ⊆ names') ∧
  ∃ t, trace σ' = trace σ ++ t.

(** The ways in which the methods change a state, one at a time. *)
Inductive mutation : pystate → pystate → Prop :=
| mutation_trace σ t :
    mutation σ (with_trace (λ t0, t0 ++ t) σ)
| mutation_constructed σ v :
    isinstance_integer v = true →
    mutation σ (constructed v σ)
| mutation_abandoned σ :
    mutation σ (with_heap (λ h, h ++ [set_id_attr PyNone blank]) σ)
| mutation_id σ a v o :
    heap σ !! a = Some o →
    isinstance_integer v = true →
    mutation σ (with_by_id (dict_set_int v a)
                  (with_heap (alter (set_id_attr v) a) σ))
| mutation_name σ a n o names :
    heap σ !! a = Some o →
    _names o = Some names →
    mutation σ (with_by_name <[n:=a]>
                  (with_heap (alter (set_names_attr ({[n]} ∪ names)) a) σ)).

(** What a program can ask of the two classes: the statements of
    [base_window.py] and the methods of [win32_window.py]. *)
Inductive action : Type :=
| DoStatement (s : statement)
| DoGetForeground
| DoGetAllWindows
| DoSetForeground (window : addr)
| DoGetPosition (window : addr)
| DoSetPosition (window : addr) (rectangle : Rectangle)
| DoIsMinimized (window : addr)
| DoMinimize (window : addr)
| DoMaximize (window : addr)
| DoRestore (window : addr)
| DoGetWindowModule (window : addr).

Definition perform (os : OS) (a : action) (σ : pystate) : pystate :=
  match a with
  | DoStatement s => execute s σ
  | DoGetForeground => (Win32Window.get_foreground os σ).2
  | DoGetAllWindows => (Win32Window.get_all_windows os σ).2
  | DoSetForeground w => (Win32Window.set_foreground os w σ).2
  | DoGetPosition w => (Win32Window.get_position os w σ).2
  | DoSetPosition w r => (Win32Window.set_position os w r σ).2
  | DoIsMinimized w => (Win32Window.is_minimized os w σ).2
  | DoMinimize w => (Win32Window.minimize os w σ).2
  | DoMaximize w => (Win32Window.maximize os w σ).2
  | DoRestore w => (Win32Window.restore os w σ).2
  | DoGetWindowModule w => (Win32Window._get_window_module os w σ).2
  end.

Definition perform_all (os : OS) (program : list action) (σ : pystate)
    : pystate :=
  foldl (λ σ a, perform os a σ) σ program.

(** ** Reasoning about [M] *)

Lemma bind_Ok {A B} (m : M A) (k : A → M B) σ a σ' :
  m σ = (Ok a, σ') → (m ≫= k) σ = k a σ'.
Proof. intros H. unfold mbind, M_bind, bind. by rewrite H. Qed.

Lemma bind_Raise {A B} (m : M A) (k : A → M B) σ e σ' :
  m σ = (Raise e, σ') → (m ≫= k) σ = (Raise e, σ').
Proof. intros H. unfold mbind, M_bind, bind. by rewrite H. Qed.

Lemma getattr_Ok {A} (field : object → option A) self σ o a :
  heap σ !! self = Some o → field o = Some a →
  getattr field self σ = (Ok a, σ).
Proof.
  intros Ho Ha. unfold getattr, deref.
  erewrite bind_Ok by (by rewrite Ho). by rewrite Ha.
Qed.

Lemma setattr_Ok upd self σ o :
  heap σ !! self = Some o →
  setattr upd self σ = (Ok tt, with_heap (alter upd self) σ).
Proof.
  intros Ho. unfold setattr, deref.
  by erewrite bind_Ok by (by rewrite Ho).
Qed.

Lemma isinstance_integer_int_value v :
  isinstance_integer v = true ↔ is_Some (int_value v).
Proof. destruct v; simpl; split; (done || by inversion 1 || eauto). Qed.

Lemma pystate_eq σ1 σ2 :
  heap σ1 = heap σ2 → _windows_by_name σ1 = _windows_by_name σ2 →
  _windows_by_id σ1 = _windows_by_id σ2 → trace σ1 = trace σ2 → σ1 = σ2.
Proof. destruct σ1, σ2; simpl; congruence. Qed.

(** *** [_set_id] and construction *)

Lemma _set_id_integer self v σ o :
  heap σ !! self = Some o → isinstance_integer v = true →
  BaseWindow._set_id self v σ =
    (Ok tt, with_by_id (dict_set_int v self)
              (with_heap (alter (set_id_attr v) self) σ)).
Proof.
  intros Ho Hv. unfold BaseWindow._set_id. rewrite Hv. simpl.
  by erewrite bind_Ok by (by eapply setattr_Ok).
Qed.

Lemma _set_id_non_integer self v σ :
  isinstance_integer v = false →
  BaseWindow._set_id self v σ = (Raise (TypeError v), σ).
Proof. intros Hv. unfold BaseWindow._set_id. by rewrite Hv. Qed.

Lemma new_integer v σ :
  isinstance_integer v = true →
  BaseWindow.new v σ = (Ok (length (heap σ)), constructed v σ).
Proof.
  intros Hv. unfold BaseWindow.new, BaseWindow.__init__.
  erewrite bind_Ok by reflexivity.
  assert (Hnew : ∀ o, (heap σ ++ [o]) !! length (heap σ) = Some o)
    by (intros; apply list_lookup_middle; done).
  assert (Halt : ∀ f o, alter f (length (heap σ)) (heap σ ++ [o])
                        = heap σ ++ [f o]).
  { intros f o. replace (length (heap σ)) with (length (heap σ) + 0)%nat by lia.
    by rewrite alter_app_r. }
  erewrite bind_Ok; last first.
  { erewrite bind_Ok by (apply setattr_Ok with (o := blank), Hnew).
    erewrite bind_Ok; last first.
    { eapply _set_id_integer; [|done]. simpl. rewrite Halt. apply Hnew. }
    eapply setattr_Ok. simpl. rewrite !Halt. apply Hnew. }
  unfold mret, M_ret, ret. f_equal.
  apply pystate_eq; simpl; try done.
  by rewrite !Halt.
Qed.

Lemma new_non_integer v σ :
  isinstance_integer v = false →
  BaseWindow.new v σ =
    (Raise (TypeError v),
     with_heap (λ h, h ++ [set_id_attr PyNone blank]) σ).
Proof.
  intros Hv. unfold BaseWindow.new, BaseWindow.__init__.
  erewrite bind_Ok by reflexivity.
  assert (Hnew : ∀ o, (heap σ ++ [o]) !! length (heap σ) = Some o)
    by (intros; apply list_lookup_middle; done).
  erewrite bind_Raise; [reflexivity|].
  erewrite bind_Ok by (apply setattr_Ok with (o := blank), Hnew).
  erewrite bind_Raise by (by apply _set_id_non_integer).
  f_equal. apply pystate_eq; simpl; try done.
  replace (length (heap σ)) with (length (heap σ) + 0)%nat by lia.
  by rewrite alter_app_r.
Qed.

Lemma Win32Window_new_eq v : Win32Window.new v = BaseWindow.new v.
Proof. reflexivity. Qed.

Lemma constructed_id v σ :
  BaseWindow.id (length (heap σ)) (constructed v σ) = (Ok v, constructed v σ).
Proof.
  apply getattr_Ok with (o := initialised v ∅); [|done].
  simpl. by apply list_lookup_middle.
Qed.

(** ** Handles *)

(** C1 (as the code has it).  Whether a value is accepted as a window's
    handle depends on its type alone: every instance of [int], of either
    sign, is stored; every other value makes the [id] setter, the
    [handle] setter and the constructor raise [TypeError] at once.  After
    a rejected assignment the state is the one before it, so the stored
    id and both registries are unchanged; a rejected construction leaves
    the registries and every existing window as they were. *)
Theorem handle_checked_by_type_only (σ : pystate) (self : addr) (v : pyval) :
  is_Some (heap σ !! self) →
  (if isinstance_integer v then
     ∃ σ', BaseWindow.set_id self v σ = (Ok tt, σ') ∧
           BaseWindow.set_handle self v σ = (Ok tt, σ') ∧
           BaseWindow.id self σ' = (Ok v, σ')
   else
     BaseWindow.set_id self v σ = (Raise (TypeError v), σ) ∧
     BaseWindow.set_handle self v σ = (Raise (TypeError v), σ))
  ∧
  (if isinstance_integer v then
     ∃ w σ', BaseWindow.new v σ = (Ok w, σ') ∧
             BaseWindow.id w σ' = (Ok v, σ')
   else
     ∃ σ', BaseWindow.new v σ = (Raise (TypeError v), σ') ∧
           _windows_by_id σ' = _windows_by_id σ ∧
           _windows_by_name σ' = _windows_by_name σ ∧
           ∀ a o, heap σ !! a = Some o → heap σ' !! a = Some o).
Proof.
  intros [o Ho]. destruct (isinstance_integer v) eqn:Hv; split.
  - eexists. unfold BaseWindow.set_id, BaseWindow.set_handle.
    rewrite (_set_id_integer _ _ _ _ Ho Hv). split_and!; try done.
    apply getattr_Ok with (o := set_id_attr v o); [|done]. simpl.
    by rewrite list_lookup_alter_eq, Ho.
  - exists (length (heap σ)), (constructed v σ).
    split; [by apply new_integer | apply constructed_id].
  - unfold BaseWindow.set_id, BaseWindow.set_handle.
    by rewrite _set_id_non_integer.
  - eexists. split; [by apply new_non_integer|]. simpl. split_and!; try done.
    intros a o' Ha. by apply lookup_app_l_Some.
Qed.

Lemma handle_checked_by_type_only_witness :
  (∃ σ', BaseWindow.set_id 0%nat (PyInt (-3)) one_window = (Ok tt, σ') ∧
         BaseWindow.set_handle 0%nat (PyInt (-3)) one_window = (Ok tt, σ') ∧
         BaseWindow.id 0%nat σ' = (Ok (PyInt (-3)), σ')) ∧
  BaseWindow.set_id 0%nat (PyStr "seven") one_window
    = (Raise (TypeError (PyStr "seven")), one_window).
Proof.
  split.
  - apply (handle_checked_by_type_only one_window 0%nat (PyInt (-3))).
    simpl. eauto.
  - apply (handle_checked_by_type_only one_window 0%nat (PyStr "seven")).
    simpl. eauto.
Defined.

(** C1 (as the specification has it) fails: a negative integer is
    accepted as a handle, by the constructor and by the setter alike. *)
Lemma negative_handle_accepted :
  (BaseWindow.new (PyInt (-1)) empty_state).1 = Ok 0%nat ∧
  BaseWindow.handle 0%nat (BaseWindow.new (PyInt (-1)) empty_state).2
    = (Ok (PyInt (-1)), constructed (PyInt (-1)) empty_state) ∧
  (BaseWindow.set_handle 0%nat (PyInt (-2)) one_window).1 = Ok tt ∧
  (BaseWindow.handle 0%nat
     (BaseWindow.set_handle 0%nat (PyInt (-2)) one_window).2).1
    = Ok (PyInt (-2)) ∧
  ¬ (0 ≤ -1) ∧ ¬ (0 ≤ -2).
Proof. split_and!; try reflexivity; lia. Qed.

(** C2.  Constructing a window from an integer [h] succeeds and reading
    its [id] (or [handle]) gives [h] back; constructing it from any other
    value raises [TypeError].  This holds for both classes. *)
Theorem construct_then_read_id (σ : pystate) (h : pyval) :
  if isinstance_integer h then
    ∃ w σ',
      BaseWindow.new h σ = (Ok w, σ') ∧
      Win32Window.new h σ = (Ok w, σ') ∧
      BaseWindow.id w σ' = (Ok h, σ') ∧
      BaseWindow.handle w σ' = (Ok h, σ') ∧
      BaseWindow._handle w σ' = (Ok h, σ')
  else
    (BaseWindow.new h σ).1 = Raise (TypeError h) ∧
    (Win32Window.new h σ).1 = Raise (TypeError h).
Proof.
  destruct (isinstance_integer h) eqn:Hh.
  - exists (length (heap σ)), (constructed h σ).
    change (Win32Window.new h) with (BaseWindow.new h).
    rewrite new_integer by done.
    split_and!; try done; apply constructed_id.
  - change (Win32Window.new h) with (BaseWindow.new h).
    by rewrite new_non_integer.
Qed.

(** ** Moving a window *)

(** C3.  Without an animation name, and with a name that
    [window_movers] does not have, [move] is [set_position]: same result,
    same exception if any, same final state.  No [KeyError] escapes. *)
Theorem move_without_animator (window_movers : gmap string WindowMover)
    (cls : WindowClass) (self : addr) (r : Rectangle) (σ : pystate) :
  BaseWindow.move window_movers cls self r PyNone σ
    = cls.(m_set_position) self r σ ∧
  ∀ s : string,
    window_movers !! s = None →
    BaseWindow.move window_movers cls self r (PyStr s) σ
      = cls.(m_set_position) self r σ.
Proof.
  split; [reflexivity|]. intros s Hs. unfold BaseWindow.move, dict_get_str.
  destruct (truthy (PyStr s)); simpl; [|done]. by rewrite Hs.
Qed.

Lemma move_without_animator_witness :
  BaseWindow.move {[ "spline"%string := direct_mover ]}
    (Win32Window.class (sample_os 0)) 0%nat sample_rectangle
    (PyStr "linear") one_window
  = Win32Window.set_position (sample_os 0) 0%nat sample_rectangle one_window.
Proof.
  apply (move_without_animator {[ "spline"%string := direct_mover ]}
           (Win32Window.class (sample_os 0)) 0%nat sample_rectangle one_window).
  by apply lookup_singleton_ne.
Defined.

(** C4 (as the code has it).  With a non-empty name that [window_movers]
    has, [move] reads the window's position with [get_position] and hands
    the window, that position and the target rectangle to the registered
    mover's [move_window]; this is all it does, so [set_position] is run
    only if the mover runs it: two classes with the same [get_position] on
    which the mover behaves alike are moved alike, whatever their
    [set_position]. *)
Theorem move_delegates_to_animator (window_movers : gmap string WindowMover)
    (cls : WindowClass) (self : addr) (r : Rectangle) (s : string)
    (mover : WindowMover) (σ : pystate) :
  s ≠ EmptyString →
  window_movers !! s = Some mover →
  BaseWindow.move window_movers cls self r (PyStr s) σ
    = (position ← cls.(m_get_position) self;
       mover.(move_window) cls self position r) σ
  ∧
  ∀ set_position' : addr → Rectangle → M unit,
    let cls' := mkClass cls.(m_get_position) set_position' in
    mover.(move_window) cls' = mover.(move_window) cls →
    BaseWindow.move window_movers cls' self r (PyStr s) σ
      = BaseWindow.move window_movers cls self r (PyStr s) σ.
Proof.
  intros Hs Hm.
  assert (Hmove : ∀ c, BaseWindow.move window_movers c self r (PyStr s) σ
            = (position ← c.(m_get_position) self;
               mover.(move_window) c self position r) σ).
  { intros c. unfold BaseWindow.move, dict_get_str. simpl.
    rewrite bool_decide_eq_false_2 by done. simpl. by rewrite Hm. }
  split; [apply Hmove|].
  intros sp cls' Hsame. rewrite !Hmove. subst cls'. simpl. by rewrite Hsame.
Qed.

Lemma move_delegates_to_animator_witness :
  BaseWindow.move {[ "spline"%string := idle_mover ]}
    (Win32Window.class (sample_os 0)) 0%nat sample_rectangle
    (PyStr "spline") one_window
  = (position ← Win32Window.get_position (sample_os 0) 0%nat;
     idle_mover.(move_window) (Win32Window.class (sample_os 0)) 0%nat
       position sample_rectangle) one_window.
Proof.
  apply (move_delegates_to_animator {[ "spline"%string := idle_mover ]}
           (Win32Window.class (sample_os 0)) 0%nat sample_rectangle
           "spline" idle_mover one_window).
  - done.
  - by apply lookup_singleton_eq.
Defined.

(** C4 (as the specification has it) fails for the empty name: a mover
    registered under the empty string is never used, because
    [if not animate] sends the empty string to [set_position].  Here the
    mover does nothing, so delegating would only read the position
    ([GetWindowRect]); [move] instead moves the window ([MoveWindow]). *)
Lemma empty_name_is_not_animated :
  let window_movers : gmap string WindowMover :=
    {[ EmptyString := idle_mover ]} in
  let cls := Win32Window.class (sample_os 0) in
  let moved :=
    BaseWindow.move window_movers cls 0%nat sample_rectangle
      (PyStr EmptyString) one_window in
  let delegated :=
    (position ← cls.(m_get_position) 0%nat;
     idle_mover.(move_window) cls 0%nat position sample_rectangle)
      one_window in
  window_movers !! EmptyString = Some idle_mover ∧
  moved = cls.(m_set_position) 0%nat sample_rectangle one_window ∧
  trace moved.2 = [Called (MoveWindow (PyInt 7) 0 0 640 480 1)] ∧
  trace delegated.2 = [Called (GetWindowRect (PyInt 7))] ∧
  moved ≠ delegated.
Proof.
  split_and!; try reflexivity.
  intros H. apply (f_equal (λ x, only_MoveWindow (trace x.2))) in H.
  discriminate H.
Qed.

(** ** The containing monitor *)

Section first_containing.
Context {Monitor Point : Type} (rectangle : Monitor → Rectangle)
  (contains : Rectangle → Point → bool) (c : Point).

Lemma first_containing_Some ms m :
  first_monitor_containing rectangle contains c ms m →
  Win32Window.first_containing Monitor Point rectangle contains c ms = Some m.
Proof.
  intros (before & after & -> & Hm & Hbefore).
  induction Hbefore as [|m' before Hm' _ IH]; simpl.
  - by rewrite Hm.
  - by rewrite Hm'.
Qed.

Lemma first_containing_None ms :
  Forall (λ m', contains (rectangle m') c = false) ms →
  Win32Window.first_containing Monitor Point rectangle contains c ms = None.
Proof. induction 1 as [|m' ms Hm' _ IH]; simpl; [done|]. by rewrite Hm'. Qed.
End first_containing.

(** C5.  When the window's position can be read, [get_containing_monitor]
    returns the first monitor of the list whose rectangle contains the
    centre of that position; when no monitor contains it, the first
    monitor of the list is returned (an empty list has no first monitor:
    [monitors[0]] raises [IndexError]). *)
Theorem containing_monitor_first_or_default (os : OS) (Monitor Point : Type)
    (monitors : list Monitor) (rectangle : Monitor → Rectangle)
    (center : Rectangle → Point) (contains : Rectangle → Point → bool)
    (self : addr) (σ σ' : pystate) (position : Rectangle) :
  Win32Window.get_position os self σ = (Ok position, σ') →
  let result :=
    Win32Window.get_containing_monitor os Monitor Point monitors rectangle
      center contains self σ in
  (∀ m, first_monitor_containing rectangle contains (center position) monitors m →
        result = (Ok m, σ')) ∧
  (Forall (λ m', contains (rectangle m') (center position) = false) monitors →
   match monitors with
   | m :: _ => result = (Ok m, σ')
   | [] => result = (Raise IndexError, σ')
   end).
Proof.
  intros Hpos result. subst result. unfold Win32Window.get_containing_monitor.
  rewrite (bind_Ok _ _ _ _ _ Hpos). split.
  - intros m Hm. by rewrite (first_containing_Some _ _ _ _ _ Hm).
  - intros Hnone. rewrite (first_containing_None _ _ _ _ Hnone).
    by destruct monitors.
Qed.

Lemma containing_monitor_first_or_default_witness :
  Win32Window.get_containing_monitor (sample_os 0) Rectangle (Z * Z)
    (reverse sample_monitors) (λ m, m) sample_center sample_contains
    0%nat one_window
  = (Ok (mkRectangle 0 0 100 100),
     (Win32Window.get_position (sample_os 0) 0%nat one_window).2)
  ∧
  Win32Window.get_containing_monitor (sample_os 0) Rectangle (Z * Z)
    [mkRectangle 100 0 100 100] (λ m, m) sample_center sample_contains
    0%nat one_window
  = (Ok (mkRectangle 100 0 100 100),
     (Win32Window.get_position (sample_os 0) 0%nat one_window).2).
Proof.
  split.
  - apply (containing_monitor_first_or_default (sample_os 0) Rectangle (Z * Z)
             (reverse sample_monitors) (λ m, m) sample_center sample_contains
             0%nat one_window _ (mkRectangle 10 20 100 60) eq_refl).
    exists [mkRectangle 100 0 100 100], []. split_and!; [reflexivity ..|].
    repeat constructor.
  - pose proof (proj2 (containing_monitor_first_or_default (sample_os 0)
             Rectangle (Z * Z) [mkRectangle 100 0 100 100] (λ m, m)
             sample_center sample_contains 0%nat one_window _
             (mkRectangle 10 20 100 60) eq_refl)) as H.
    apply H. repeat constructor.
Defined.

(** ** Native calls *)

Lemma native_eq (os : OS) {X} (c : call X) σ :
  Win32Window.native os c σ
    = (os X (trace σ) c, with_trace (λ t, t ++ [Called c]) σ).
Proof. reflexivity. Qed.

Lemma _handle_Ok self σ o h :
  heap σ !! self = Some o → _id o = Some h →
  BaseWindow._handle self σ = (Ok h, σ).
Proof. apply getattr_Ok. Qed.

(** C6.  [set_foreground] first asks [IsIconic].  If the answer is true
    (the window is minimised) it issues [ShowWindow(handle, SW_RESTORE)]
    and, once that has returned, [SetForegroundWindow(handle)]: the restore
    call comes strictly before the focus call, and a restore call that
    raises is not followed by a focus call.  If the answer is false no
    [ShowWindow] call is made: [SetForegroundWindow] is the only call
    after the query.  In both cases the method's outcome is that of
    [SetForegroundWindow]. *)
Theorem set_foreground_restores_first (os : OS) (self : addr) (σ : pystate)
    (o : object) (h : pyval) (iconic : Z) :
  heap σ !! self = Some o →
  _id o = Some h →
  os Z (trace σ) (IsIconic h) = Ok iconic →
  let t := trace σ in
  let query := Called (IsIconic h) in
  let restore := Called (ShowWindow h SW_RESTORE) in
  let focus := Called (SetForegroundWindow h) in
  let final := Win32Window.set_foreground os self σ in
  (iconic ≠ 0 →
     (∀ r, os Z (t ++ [query]) (ShowWindow h SW_RESTORE) = Ok r →
           trace final.2 = t ++ [query; restore; focus] ∧
           final.1 = os unit (t ++ [query; restore]) (SetForegroundWindow h)) ∧
     (∀ e, os Z (t ++ [query]) (ShowWindow h SW_RESTORE) = Raise e →
           trace final.2 = t ++ [query; restore] ∧ final.1 = Raise e)) ∧
  (iconic = 0 →
     trace final.2 = t ++ [query; focus] ∧
     final.1 = os unit (t ++ [query]) (SetForegroundWindow h)).
Proof.
  intros Ho Hh Hiconic t query restore focus final.
  assert (Hmin : Win32Window.is_minimized os self σ
            = (Ok (negb (iconic =? 0)),
               with_trace (λ t, t ++ [query]) σ)).
  { unfold Win32Window.is_minimized.
    rewrite (bind_Ok _ _ _ _ _ (_handle_Ok _ _ _ _ Ho Hh)).
    erewrite bind_Ok by (rewrite native_eq, Hiconic; reflexivity).
    reflexivity. }
  assert (Hself : ∀ f, BaseWindow._handle self (with_trace f σ)
            = (Ok h, with_trace f σ))
    by (intros f; by apply _handle_Ok with (o := o)).
  subst final. unfold Win32Window.set_foreground.
  rewrite (bind_Ok _ _ _ _ _ Hmin).
  split.
  - intros Hne. rewrite (proj2 (Z.eqb_neq iconic 0) Hne). simpl negb. cbv iota.
    unfold Win32Window.restore, Win32Window._win32gui_show_window,
      Win32Window._set_foreground.
    split.
    + intros r Hr.
      erewrite bind_Ok; last first.
      { erewrite bind_Ok; last first.
        { erewrite bind_Ok by apply Hself.
          rewrite native_eq. simpl trace. fold t query. rewrite Hr. reflexivity. }
        reflexivity. }
      rewrite (bind_Ok _ _ _ h _) by (by apply _handle_Ok with (o := o)).
      rewrite native_eq. simpl. by rewrite <- !app_assoc.
    + intros e He.
      erewrite bind_Raise; last first.
      { erewrite bind_Raise; last first.
        { erewrite bind_Ok by apply Hself.
          rewrite native_eq. simpl trace. fold t query. rewrite He. reflexivity. }
        reflexivity. }
      simpl. by rewrite <- !app_assoc.
  - intros ->. simpl negb. cbv iota.
    erewrite bind_Ok by reflexivity.
    unfold Win32Window._set_foreground.
    erewrite bind_Ok by apply Hself.
    rewrite native_eq. simpl. by rewrite <- !app_assoc.
Qed.

Lemma set_foreground_restores_first_witness :
  trace (Win32Window.set_foreground (sample_os 1) 0%nat one_window).2
    = [Called (IsIconic (PyInt 7));
       Called (ShowWindow (PyInt 7) SW_RESTORE);
       Called (SetForegroundWindow (PyInt 7))] ∧
  trace (Win32Window.set_foreground (sample_os 0) 0%nat one_window).2
    = [Called (IsIconic (PyInt 7));
       Called (SetForegroundWindow (PyInt 7))].
Proof.
  split.
  - pose proof (set_foreground_restores_first (sample_os 1) 0%nat one_window
             (initialised (PyInt 7) ∅) (PyInt 7) 1 eq_refl eq_refl eq_refl)
      as H.
    cbv zeta in H. destruct H as [Hminimised _].
    destruct Hminimised as [Hrestored _]; [lia|].
    apply (Hrestored 1 eq_refl).
  - pose proof (set_foreground_restores_first (sample_os 0) 0%nat one_window
             (initialised (PyInt 7) ∅) (PyInt 7) 0 eq_refl eq_refl eq_refl)
      as H.
    cbv zeta in H. destruct H as [_ Hnot]. apply (Hnot eq_refl).
Defined.

(** ** The executable path *)

Section window_module.
Variable os : OS.

Lemma query_full_process_image_name_eq handle σ :
  Win32Window.query_full_process_image_name os handle σ
    = (path_result
         (os _ (trace σ) (QueryFullProcessImageNameW handle 0 256)),
       with_trace
         (λ t, t ++ [Called (QueryFullProcessImageNameW handle 0 256)]) σ).
Proof.
  unfold Win32Window.query_full_process_image_name, path_result.
  change (Z.to_nat 256) with 256%nat. cbv zeta.
  unfold mbind, M_bind, bind. rewrite native_eq.
  destruct (os _ (trace σ) _) as [written|e]; [|done].
  unfold upto_NUL. by destruct (index_NUL _).
Qed.

Lemma get_module_file_name_ex_eq handle σ :
  Win32Window.get_module_file_name_ex os handle σ
    = (path_result (os _ (trace σ) (GetModuleFileNameExW handle 0 256)),
       with_trace (λ t, t ++ [Called (GetModuleFileNameExW handle 0 256)]) σ).
Proof.
  unfold Win32Window.get_module_file_name_ex, path_result.
  change (Z.to_nat 256) with 256%nat. cbv zeta.
  unfold mbind, M_bind, bind. rewrite native_eq.
  destruct (os _ (trace σ) _) as [written|e]; [|done].
  unfold upto_NUL. by destruct (index_NUL _).
Qed.

(** The part of [_get_window_module] before the [try] statement. *)
Lemma _get_window_module_opened self σ o h pid handle :
  heap σ !! self = Some o →
  _id o = Some h →
  os Z (trace σ) (GetWindowThreadProcessId h) = Ok pid →
  os Z (trace σ ++ [Called (GetWindowThreadProcessId h)])
    (OpenProcess 0x0410 0 pid) = Ok handle →
  Win32Window._get_window_module os self σ
    = try_finally
        (try_except_Exception
           (Win32Window.query_full_process_image_name os handle)
           (Win32Window.get_module_file_name_ex os handle))
        (Win32Window.native os (CloseHandle handle);; mret tt)
        (with_trace
           (λ t, t ++ [Called (GetWindowThreadProcessId h);
                       Called (OpenProcess 0x0410 0 pid)]) σ).
Proof.
  intros Ho Hh Hpid Hopen. unfold Win32Window._get_window_module.
  rewrite (bind_Ok _ _ _ _ _ (_handle_Ok _ _ _ _ Ho Hh)).
  erewrite bind_Ok by (rewrite native_eq, Hpid; reflexivity).
  erewrite bind_Ok by (rewrite native_eq; simpl trace; rewrite Hopen;
                        reflexivity).
  set (body := try_finally _ _).
  replace (with_trace _ (with_trace _ σ)) with
    (with_trace (λ t, t ++ [Called (GetWindowThreadProcessId h);
                            Called (OpenProcess 0x0410 0 pid)]) σ)
    by (apply pystate_eq; simpl; try done; by rewrite <- app_assoc).
  unfold mbind, M_bind, bind. destruct (body _) as [[buffer|e] σ']; done.
Qed.

Lemma close_handle_eq handle σ :
  (Win32Window.native os (CloseHandle handle);; mret tt) σ
    = (match os Z (trace σ) (CloseHandle handle) with
       | Ok _ => Ok tt
       | Raise e => Raise e
       end,
       with_trace (λ t, t ++ [Called (CloseHandle handle)]) σ).
Proof.
  unfold mbind, M_bind, bind. rewrite native_eq.
  by destruct (os Z (trace σ) (CloseHandle handle)).
Qed.

(** C7.  Once [OpenProcess] has returned a handle, every run of
    [_get_window_module] ends its native calls with [CloseHandle] on
    that handle, and makes that call once: after the newer query alone
    (when it succeeds, or raises something that [except Exception] does
    not catch) or after the newer and the older query (whether the
    older one succeeds or raises).  Nothing is assumed about what the
    queries or [CloseHandle] answer. *)
Theorem process_handle_always_closed (self : addr) (σ : pystate)
    (o : object) (h : pyval) (pid handle : Z) :
  heap σ !! self = Some o →
  _id o = Some h →
  os Z (trace σ) (GetWindowThreadProcessId h) = Ok pid →
  os Z (trace σ ++ [Called (GetWindowThreadProcessId h)])
    (OpenProcess 0x0410 0 pid) = Ok handle →
  let newer := Called (QueryFullProcessImageNameW handle 0 256) in
  let older := Called (GetModuleFileNameExW handle 0 256) in
  ∃ queries,
    trace (Win32Window._get_window_module os self σ).2
      = trace σ
          ++ [Called (GetWindowThreadProcessId h);
              Called (OpenProcess 0x0410 0 pid)]
          ++ queries ++ [Called (CloseHandle handle)] ∧
    (queries = [newer] ∨ queries = [newer; older]).
Proof.
  intros Ho Hh Hpid Hopen newer older.
  rewrite (_get_window_module_opened _ _ _ _ _ _ Ho Hh Hpid Hopen).
  unfold try_finally, try_except_Exception.
  rewrite query_full_process_image_name_eq.
  destruct (path_result _) as [buffer|e].
  - exists [newer]. rewrite close_handle_eq.
    split; [|by left].
    destruct (os Z _ (CloseHandle handle)); simpl;
      by rewrite <- !app_assoc.
  - destruct (is_Exception e).
    + exists [newer; older]. rewrite get_module_file_name_ex_eq.
      rewrite close_handle_eq. split; [|by right].
      destruct (os Z _ (CloseHandle handle)); simpl;
        by rewrite <- !app_assoc.
    + exists [newer]. rewrite close_handle_eq. split; [|by left].
      destruct (os Z _ (CloseHandle handle)); simpl;
        by rewrite <- !app_assoc.
Qed.

(** C8.  An exception raised by the lines that use
    [QueryFullProcessImageNameW] - by the call or by
    [buffer.index("\0")] - is caught and the lines that use
    [GetModuleFileNameExW] are run instead; what they return or raise
    is what [_get_window_module] returns or raises.  So the lookup
    raises exactly when the newer query failed and the older one failed
    too.  Exceptions are those derived from [Exception], which is what
    the [except] clause names; the handle is taken to be open and
    [CloseHandle] to return. *)
Theorem newer_query_failure_falls_back (self : addr) (σ : pystate)
    (o : object) (h : pyval) (pid handle : Z) :
  heap σ !! self = Some o →
  _id o = Some h →
  os Z (trace σ) (GetWindowThreadProcessId h) = Ok pid →
  os Z (trace σ ++ [Called (GetWindowThreadProcessId h)])
    (OpenProcess 0x0410 0 pid) = Ok handle →
  (∀ t, ∃ r, os Z t (CloseHandle handle) = Ok r) →
  let opened := trace σ ++ [Called (GetWindowThreadProcessId h);
                            Called (OpenProcess 0x0410 0 pid)] in
  let newer := Called (QueryFullProcessImageNameW handle 0 256) in
  let older := Called (GetModuleFileNameExW handle 0 256) in
  let close := Called (CloseHandle handle) in
  let modern :=
    path_result (os _ opened (QueryFullProcessImageNameW handle 0 256)) in
  let legacy :=
    path_result
      (os _ (opened ++ [newer]) (GetModuleFileNameExW handle 0 256)) in
  let final := Win32Window._get_window_module os self σ in
  (∀ e, modern = Raise e → is_Exception e = true) →
  (∀ buffer, modern = Ok buffer →
     final.1 = Ok buffer ∧ trace final.2 = opened ++ [newer; close]) ∧
  (raised modern →
     final.1 = legacy ∧ trace final.2 = opened ++ [newer; older; close]) ∧
  (raised final.1 ↔ raised modern ∧ raised legacy).
Proof.
  intros Ho Hh Hpid Hopen Hclose opened newer older close modern legacy final
    Hexc.
  assert (Hfinal : final =
    (match modern with Ok buffer => Ok buffer | Raise _ => legacy end,
     with_trace
       (λ _, opened ++ match modern with
                       | Ok _ => [newer; close]
                       | Raise _ => [newer; older; close]
                       end) σ)).
  { subst final.
    rewrite (_get_window_module_opened _ _ _ _ _ _ Ho Hh Hpid Hopen).
    unfold try_finally, try_except_Exception.
    rewrite query_full_process_image_name_eq. simpl trace.
    fold opened modern. destruct modern as [buffer|e] eqn:Hmodern.
    - rewrite close_handle_eq.
      match goal with
      | |- context [os Z ?t (CloseHandle handle)] =>
          destruct (Hclose t) as [r ->]
      end.
      f_equal. apply pystate_eq; simpl; try done.
      fold opened. by rewrite <- app_assoc.
    - rewrite (Hexc e eq_refl). rewrite get_module_file_name_ex_eq.
      simpl trace. fold opened newer legacy.
      rewrite close_handle_eq.
      match goal with
      | |- context [os Z ?t (CloseHandle handle)] =>
          destruct (Hclose t) as [r ->]
      end.
      f_equal. apply pystate_eq; simpl; try done.
      fold opened. by rewrite <- !app_assoc. }
  rewrite Hfinal. simpl. split_and!.
  - by intros buffer ->.
  - by destruct modern.
  - destruct modern; simpl; tauto.
Qed.

End window_module.

(** A newer query that fails without raising - it returns and has written
    nothing - is not a failure to [_get_window_module]: the buffer holds
    the empty string and the older query is not tried. *)
Lemma newer_query_silent_failure : path_result (Ok []) = Ok [].
Proof. reflexivity. Qed.

Lemma process_handle_always_closed_witness :
  ∃ queries,
    trace (Win32Window._get_window_module (sample_os 0) 0%nat one_window).2
      = trace one_window
          ++ [Called (GetWindowThreadProcessId (PyInt 7));
              Called (OpenProcess 0x0410 0 4242)]
          ++ queries ++ [Called (CloseHandle 88)] ∧
    (queries = [Called (QueryFullProcessImageNameW 88 0 256)] ∨
     queries = [Called (QueryFullProcessImageNameW 88 0 256);
                Called (GetModuleFileNameExW 88 0 256)]).
Proof.
  exact (process_handle_always_closed (sample_os 0) 0%nat one_window
           (initialised (PyInt 7) ∅) (PyInt 7) 4242 88
           eq_refl eq_refl eq_refl eq_refl).
Defined.

Lemma newer_query_failure_falls_back_witness :
  (Win32Window._get_window_module (sample_os 0) 0%nat one_window).1
    = Ok [97; 46; 101; 120; 101]%N ∧
  trace (Win32Window._get_window_module (sample_os 0) 0%nat one_window).2
    = [Called (GetWindowThreadProcessId (PyInt 7));
       Called (OpenProcess 0x0410 0 4242);
       Called (QueryFullProcessImageNameW 88 0 256);
       Called (GetModuleFileNameExW 88 0 256);
       Called (CloseHandle 88)].
Proof.
  pose proof (newer_query_failure_falls_back (sample_os 0) 0%nat one_window
                (initialised (PyInt 7) ∅) (PyInt 7) 4242 88
                eq_refl eq_refl eq_refl eq_refl
                (λ _, ex_intro _ 1 eq_refl)) as H.
  cbv zeta in H. destruct H as (_ & Hfallback & _).
  - intros e He. injection He as <-. reflexivity.
  - apply Hfallback. exact I.
Defined.

(** ** Names *)

Lemma _set_name_Ok w s σ o names :
  heap σ !! w = Some o →
  _names o = Some names →
  BaseWindow._set_name w (PyStr s) σ
    = (Ok tt,
       with_by_name <[s:=w]>
         (with_heap (alter (set_names_attr ({[s]} ∪ names)) w) σ)).
Proof.
  intros Ho Hnames. unfold BaseWindow._set_name. simpl.
  rewrite (bind_Ok _ _ _ _ _ (getattr_Ok _ _ _ _ _ Ho Hnames)).
  by erewrite bind_Ok by (by eapply setattr_Ok).
Qed.

Lemma _get_name_nonempty set_iter w σ o names :
  (∀ s, set_iter s ≡ₚ elements s) →
  heap σ !! w = Some o →
  _names o = Some names →
  names ≠ ∅ →
  ∃ m, BaseWindow._get_name set_iter w σ = (Ok (PyStr m), σ) ∧ m ∈ names.
Proof.
  intros Hiter Ho Hnames Hne. unfold BaseWindow._get_name.
  rewrite (bind_Ok _ _ _ _ _ (getattr_Ok _ _ _ _ _ Ho Hnames)).
  rewrite bool_decide_eq_false_2 by done.
  pose proof (Hiter names) as Hperm.
  destruct (set_iter names) as [|name rest].
  - apply Permutation_nil_l in Hperm. symmetry in Hperm.
    apply elements_empty_inv in Hperm. by apply leibniz_equiv in Hperm.
  - exists name. split; [done|].
    apply elem_of_elements. rewrite <- Hperm. by left.
Qed.

(** What a statement does to a window that [__init__] has completed on:
    only [AssignName] on that window changes its names. *)
Lemma execute_names s σ w v names :
  heap σ !! w = Some (initialised v names) →
  ∃ v', heap (execute s σ) !! w
        = Some (initialised v' (names_assigned w [s] ∪ names)).
Proof.
  intros Hw.
  assert (Hempty : ∅ ∪ names = names) by set_solver.
  destruct s as [id|a value|a name]; simpl.
  - rewrite Hempty.
    exists v. destruct (isinstance_integer id) eqn:Hid.
    + rewrite new_integer by done. simpl. by apply lookup_app_l_Some.
    + rewrite new_non_integer by done. simpl. by apply lookup_app_l_Some.
  - rewrite Hempty. unfold BaseWindow.set_id.
    destruct (isinstance_integer value) eqn:Hvalue;
      [|rewrite _set_id_non_integer by done; eauto].
    destruct (heap σ !! a) as [o|] eqn:Ha.
    + rewrite (_set_id_integer _ _ _ _ Ha Hvalue). simpl.
      destruct (decide (a = w)) as [->|Hne].
      * exists value. by rewrite list_lookup_alter_eq, Hw.
      * exists v. by rewrite list_lookup_alter_ne.
    + exists v. unfold BaseWindow._set_id. rewrite Hvalue. simpl.
      erewrite bind_Raise; [done|]. unfold setattr.
      erewrite bind_Raise; [done|]. unfold deref. by rewrite Ha.
  - exists v.
    destruct name as [| | | |s];
      try (by rewrite Hempty; unfold BaseWindow._set_name; simpl).
    destruct (decide (a = w)) as [->|Hne].
    + rewrite (_set_name_Ok _ _ _ _ names Hw eq_refl). simpl.
      rewrite list_lookup_alter_eq, Hw. simpl.
      unfold initialised, set_names_attr. simpl.
      assert ({[s]} ∪ ∅ ∪ names = {[s]} ∪ names) as -> by set_solver.
      done.
    + rewrite Hempty.
      destruct (heap σ !! a) as [o|] eqn:Ha.
      * destruct (_names o) as [names'|] eqn:Hnames'.
        -- rewrite (_set_name_Ok _ _ _ _ _ Ha Hnames'). simpl.
           by rewrite list_lookup_alter_ne.
        -- unfold BaseWindow._set_name. simpl.
           erewrite bind_Raise; [done|]. unfold getattr.
           erewrite bind_Ok by (unfold deref; by rewrite Ha).
           by rewrite Hnames'.
      * unfold BaseWindow._set_name. simpl.
        erewrite bind_Raise; [done|]. unfold getattr.
        erewrite bind_Raise; [done|]. unfold deref. by rewrite Ha.
Qed.

Lemma names_assigned_cons w s program :
  names_assigned w (s :: program)
    = names_assigned w [s] ∪ names_assigned w program.
Proof.
  destruct s as [| |a [| | | |name]]; simpl; try set_solver.
  destruct (decide (a = w)); set_solver.
Qed.

Lemma execute_all_names program σ w v names :
  heap σ !! w = Some (initialised v names) →
  ∃ v', heap (execute_all program σ) !! w
        = Some (initialised v' (names_assigned w program ∪ names)).
Proof.
  revert σ v names. induction program as [|s program IH]; intros σ v names Hw.
  - exists v. simpl. by assert (∅ ∪ names = names) as -> by set_solver.
  - change (execute_all (s :: program) σ)
      with (execute_all program (execute s σ)).
    destruct (execute_names s σ w v names Hw) as [v1 H1].
    destruct (IH _ _ _ H1) as [v2 H2]. exists v2.
    rewrite H2, (names_assigned_cons w s program).
    by assert (names_assigned w program ∪ (names_assigned w [s] ∪ names)
               = names_assigned w [s] ∪ names_assigned w program ∪ names)
      as -> by set_solver.
Qed.

(** C9.  Take a window [w] just constructed, let any statements follow
    (constructions, id and name assignments, on [w] or on other windows),
    and then set the name [n] on [w].  The assignment succeeds, the name
    registry maps [n] to [w], and reading [w.name] gives a string that is
    [n] or one of the names assigned to [w] before - which one depends on
    the order in which Python iterates over the set. *)
Theorem name_registered_and_readable (set_iter : gset string → list string)
    (σ0 : pystate) (h : pyval) (program : list statement) (n : string) :
  (∀ s, set_iter s ≡ₚ elements s) →
  isinstance_integer h = true →
  let w := length (heap σ0) in
  let σ := execute_all (Construct h :: program) σ0 in
  ∃ σ',
    BaseWindow._set_name w (PyStr n) σ = (Ok tt, σ') ∧
    _windows_by_name σ' !! n = Some w ∧
    ∃ m, BaseWindow._get_name set_iter w σ' = (Ok (PyStr m), σ') ∧
         m ∈ {[n]} ∪ names_assigned w program.
Proof.
  intros Hiter Hh w σ. subst σ. simpl. rewrite new_integer by done. simpl.
  destruct (execute_all_names program (constructed h σ0) w h ∅) as [v Hw].
  { simpl. by apply list_lookup_middle. }
  eexists. split; [by eapply _set_name_Ok|]. simpl. split.
  - by rewrite lookup_insert_eq.
  - assert ({[n]} ∪ names_assigned w program
            = {[n]} ∪ (names_assigned w program ∪ ∅)) as -> by set_solver.
    apply _get_name_nonempty
      with (o := set_names_attr ({[n]} ∪ (names_assigned w program ∪ ∅))
                   (initialised v (names_assigned w program ∪ ∅)));
      [done| |done|set_solver].
    simpl. by rewrite list_lookup_alter_eq, Hw.
Qed.

Lemma name_registered_and_readable_witness :
  ∃ σ',
    BaseWindow._set_name 0%nat (PyStr "editor")
      (execute_all [Construct (PyInt 7); AssignName 0%nat (PyStr "main")]
         empty_state) = (Ok tt, σ') ∧
    _windows_by_name σ' !! "editor"%string = Some 0%nat ∧
    ∃ m, BaseWindow._get_name elements 0%nat σ' = (Ok (PyStr m), σ') ∧
         m ∈ ({[ "editor"%string ]} : gset string)
               ∪ names_assigned 0%nat [AssignName 0%nat (PyStr "main")].
Proof.
  exact (name_registered_and_readable elements empty_state (PyInt 7)
           [AssignName 0%nat (PyStr "main")] "editor"
           (λ _, reflexivity _) eq_refl).
Defined.

(** With two names assigned, the name read back need not be the last
    one assigned (here the set is iterated in the order of [elements]). *)
Lemma name_need_not_be_last :
  (BaseWindow._get_name elements 0%nat
     (execute_all [Construct (PyInt 7); AssignName 0%nat (PyStr "main");
                   AssignName 0%nat (PyStr "editor")] empty_state)).1
  = Ok (PyStr "main").
Proof. vm_compute. reflexivity. Qed.

(** ** The handle registry under enumeration *)

Lemma register_all_absent n handles d h :
  h ∉ handles → register_all n handles d !! h = d !! h.
Proof.
  revert n d. induction handles as [|h' rest IH]; intros n d Hh; [done|].
  apply not_elem_of_cons in Hh as [Hne Hrest]. simpl.
  rewrite IH by done. by rewrite lookup_insert_ne.
Qed.

Lemma register_all_last n handles d i h :
  handles !! i = Some h →
  (∀ j, (i < j)%nat → handles !! j ≠ Some h) →
  register_all n handles d !! h = Some (n + i)%nat.
Proof.
  revert n d i. induction handles as [|h' rest IH]; intros n d i Hi Hlast;
    [done|].
  destruct i as [|i]; simpl in *.
  - injection Hi as ->. rewrite register_all_absent.
    + rewrite lookup_insert_eq. f_equal. lia.
    + intros [j Hj]%list_elem_of_lookup. apply (Hlast (S j)); [lia|done].
  - rewrite (IH (S n) _ i Hi).
    + f_equal. lia.
    + intros j Hj. apply (Hlast (S j)). lia.
Qed.

Section enumeration.
Variable os : OS.

Lemma Win32Window_new_integer h σ :
  Win32Window.new (PyInt h) σ
    = (Ok (length (heap σ)), constructed (PyInt h) σ).
Proof. by apply new_integer. Qed.

Lemma enumerate_eq handles argument σ :
  Win32Window.enumerate
    (λ handle argument,
       window ← Win32Window.new (PyInt handle); mret (argument ++ [window]))
    handles argument σ
  = (Ok (argument ++ seq (length (heap σ)) (length handles)),
     {| heap := heap σ ++ ((λ h, initialised (PyInt h) ∅) <$> handles);
        _windows_by_name := _windows_by_name σ;
        _windows_by_id :=
          register_all (length (heap σ)) handles (_windows_by_id σ);
        trace := trace σ |}).
Proof.
  revert argument σ.
  induction handles as [|h rest IH]; intros argument σ; simpl.
  - unfold mret, M_ret, ret. f_equal; [by rewrite app_nil_r|].
    apply pystate_eq; simpl; try done. by rewrite app_nil_r.
  - erewrite bind_Ok; last first.
    { erewrite bind_Ok by apply Win32Window_new_integer. reflexivity. }
    rewrite IH. simpl. rewrite length_app. simpl.
    replace (length (heap σ) + 1)%nat with (S (length (heap σ))) by lia.
    f_equal; [by rewrite <- app_assoc|].
    apply pystate_eq; simpl; try done. by rewrite <- app_assoc.
Qed.

Lemma get_all_windows_eq handles σ :
  os (list Z) (trace σ) EnumWindows = Ok handles →
  Win32Window.get_all_windows os σ
  = (Ok (seq (length (heap σ)) (length handles)),
     {| heap := heap σ ++ ((λ h, initialised (PyInt h) ∅) <$> handles);
        _windows_by_name := _windows_by_name σ;
        _windows_by_id :=
          register_all (length (heap σ)) handles (_windows_by_id σ);
        trace := trace σ ++ [Called EnumWindows] |}).
Proof.
  intros Henum. unfold Win32Window.get_all_windows.
  erewrite bind_Ok by (rewrite native_eq, Henum; reflexivity).
  by rewrite enumerate_eq.
Qed.

(** C10.  Constructing a [Win32Window] for a handle puts the new object
    in [_windows_by_id] under that handle, in place of whatever was
    there.  So [get_all_windows], which constructs one window per
    enumerated handle, returns objects that did not exist before and
    leaves each enumerated handle registered to the last object it
    constructed for it; a [get_foreground] that follows, for one of
    these handles, returns that object - an element of the list
    [get_all_windows] returned, with that handle as id, and none of the
    objects that existed before the enumeration - and constructs
    nothing. *)
Theorem enumeration_overwrites_registry (σ : pystate) (handles : list Z) :
  os (list Z) (trace σ) EnumWindows = Ok handles →
  let n := length (heap σ) in
  let enumerated := Win32Window.get_all_windows os σ in
  let σ' := enumerated.2 in
  (∀ (s : pystate) (v : pyval) (h : Z),
     int_value v = Some h →
     ∃ s', Win32Window.new v s = (Ok (length (heap s)), s') ∧
           _windows_by_id s' = <[h:=length (heap s)]> (_windows_by_id s)) ∧
  enumerated.1 = Ok (seq n (length handles)) ∧
  _windows_by_id σ' = register_all n handles (_windows_by_id σ) ∧
  ∀ (i : nat) (h : Z),
    handles !! i = Some h →
    (∀ j, (i < j)%nat → handles !! j ≠ Some h) →
    let newest := (n + i)%nat in
    _windows_by_id σ' !! h = Some newest ∧
    seq n (length handles) !! i = Some newest ∧
    heap σ' !! newest = Some (initialised (PyInt h) ∅) ∧
    heap σ !! newest = None ∧
    (os Z (trace σ') GetForegroundWindow = Ok h →
     Win32Window.get_foreground os σ'
       = (Ok newest, with_trace (λ t, t ++ [Called GetForegroundWindow]) σ')).
Proof.
  intros Henum n enumerated σ'. subst enumerated σ'.
  rewrite (get_all_windows_eq _ _ Henum). simpl. split_and!; try done.
  - intros s v h Hv. exists (constructed v s). split.
    + apply new_integer. apply isinstance_integer_int_value. by rewrite Hv.
    + simpl. unfold dict_set_int. by rewrite Hv.
  - intros i h Hi Hlast. set (newest := (n + i)%nat).
    assert (Hreg : register_all n handles (_windows_by_id σ) !! h
              = Some newest) by by apply register_all_last.
    split_and!; try done.
    + apply lookup_seq. split; [done|]. by eapply lookup_lt_Some.
    + subst newest n. rewrite lookup_app_r by lia.
      replace (length (heap σ) + i - length (heap σ))%nat with i by lia.
      by rewrite list_lookup_fmap, Hi.
    + apply lookup_ge_None. subst newest n. lia.
    + intros Hfg. unfold Win32Window.get_foreground.
      erewrite bind_Ok by (rewrite native_eq; simpl trace; rewrite Hfg;
                            reflexivity).
      erewrite bind_Ok by reflexivity. simpl. fold n. by rewrite Hreg.
Qed.

End enumeration.

Lemma enumeration_overwrites_registry_witness :
  (Win32Window.get_all_windows (sample_os 0) one_window).1 = Ok [1; 2]%nat ∧
  _windows_by_id one_window !! 7 = Some 0%nat ∧
  _windows_by_id (Win32Window.get_all_windows (sample_os 0) one_window).2 !! 7
    = Some 1%nat ∧
  (Win32Window.get_foreground (sample_os 0)
     (Win32Window.get_all_windows (sample_os 0) one_window).2).1 = Ok 1%nat.
Proof.
  pose proof (enumeration_overwrites_registry (sample_os 0) one_window [7; 8]
                eq_refl) as H.
  cbv zeta in H. destruct H as (_ & Hlist & _ & Hnewest).
  destruct (Hnewest 0%nat 7 eq_refl) as (Hreg & _ & _ & _ & Hfg).
  { intros [|[|j]] Hj; [lia|done|done]. }
  split_and!; [exact Hlist|reflexivity|exact Hreg|].
  by rewrite (Hfg eq_refl).
Defined.

(** * Further properties of the two classes *)

(** ** Methods that only talk to the operating system *)

Lemma same_objects_refl σ : same_objects σ σ.
Proof. done. Qed.

Lemma trace_only_ret {A} (a : A) : trace_only (mret a : M A).
Proof. intros σ. split; [done|]. exists []. simpl. by rewrite app_nil_r. Qed.

Lemma trace_only_raise {A} e : trace_only (raise e : M A).
Proof. intros σ. split; [done|]. exists []. simpl. by rewrite app_nil_r. Qed.

Lemma trace_only_bind {A B} (m : M A) (k : A → M B) :
  trace_only m → (∀ a, trace_only (k a)) → trace_only (m ≫= k).
Proof.
  intros Hm Hk σ. unfold mbind, M_bind, bind.
  destruct (Hm σ) as [(Hh & Hn & Hi) [t Ht]].
  destruct (m σ) as [[a|e] σ1]; simpl in *;
    [|split; [by unfold same_objects|by exists t]].
  destruct (Hk a σ1) as [(Hh' & Hn' & Hi') [t' Ht']].
  split.
  - unfold same_objects. by rewrite Hh', Hn', Hi'.
  - exists (t ++ t'). by rewrite Ht', Ht, app_assoc.
Qed.

Lemma trace_only_native os {X} (c : call X) :
  trace_only (Win32Window.native os c).
Proof. intros σ. split; [done|]. by exists [Called c]. Qed.

Lemma trace_only_getattr {A} (field : object → option A) self :
  trace_only (getattr field self).
Proof.
  intros σ. unfold getattr, deref, mbind, M_bind, bind.
  destruct (heap σ !! self) as [o|]; [destruct (field o)|];
    (split; [done|]; exists []; simpl; by rewrite app_nil_r).
Qed.

Lemma trace_only_try_except {A} (body handler : M A) :
  trace_only body → trace_only handler →
  trace_only (try_except_Exception body handler).
Proof.
  intros Hb Hh σ. unfold try_except_Exception.
  destruct (Hb σ) as [(H1 & H2 & H3) [t Ht]].
  destruct (body σ) as [[a|e] σ1]; simpl in *;
    [split; [by unfold same_objects|by exists t]|].
  destruct (is_Exception e); simpl;
    [|split; [by unfold same_objects|by exists t]].
  destruct (Hh σ1) as [(H1' & H2' & H3') [t' Ht']].
  split.
  - unfold same_objects. by rewrite H1', H2', H3'.
  - exists (t ++ t'). by rewrite Ht', Ht, app_assoc.
Qed.

Lemma trace_only_try_finally {A} (body : M A) (cleanup : M unit) :
  trace_only body → trace_only cleanup →
  trace_only (try_finally body cleanup).
Proof.
  intros Hb Hc σ. unfold try_finally.
  destruct (Hb σ) as [(H1 & H2 & H3) [t Ht]].
  destruct (body σ) as [r σ1]; simpl in *.
  destruct (Hc σ1) as [(H1' & H2' & H3') [t' Ht']].
  destruct (cleanup σ1) as [[[]|e] σ2]; simpl in *;
    (split; [unfold same_objects; by rewrite H1', H2', H3'
            |exists (t ++ t'); by rewrite Ht', Ht, app_assoc]).
Qed.

Lemma trace_only_upto_NUL buffer : trace_only (upto_NUL buffer).
Proof.
  unfold upto_NUL. destruct (index_NUL buffer);
    [apply trace_only_ret|apply trace_only_raise].
Qed.

Create HintDb trace_only.
#[local] Hint Resolve trace_only_ret trace_only_raise trace_only_native
  trace_only_getattr trace_only_try_except trace_only_try_finally
  trace_only_upto_NUL : trace_only.
#[local] Hint Extern 2 (trace_only (_ ≫= _)) =>
  apply trace_only_bind; [|intros ?; cbv beta] : trace_only.

Ltac solve_trace_only := repeat (cbv zeta; eauto 30 with trace_only).

Lemma trace_only_methods (os : OS) (self : addr)
    (r : Rectangle) (Monitor Point : Type) (monitors : list Monitor)
    (rectangle : Monitor → Rectangle) (center : Rectangle → Point)
    (contains : Rectangle → Point → bool) :
  trace_only (Win32Window.set_foreground os self) ∧
  trace_only (Win32Window.get_position os self) ∧
  trace_only (Win32Window.set_position os self r) ∧
  trace_only (Win32Window.is_minimized os self) ∧
  trace_only (Win32Window.minimize os self) ∧
  trace_only (Win32Window.maximize os self) ∧
  trace_only (Win32Window.restore os self) ∧
  trace_only (Win32Window._get_window_module os self) ∧
  trace_only (Win32Window.get_containing_monitor os Monitor Point monitors
                rectangle center contains self).
Proof.
  assert (Hshow : ∀ state,
            trace_only (Win32Window._win32gui_show_window os state self)).
  { intros state. unfold Win32Window._win32gui_show_window,
      BaseWindow._handle. solve_trace_only. }
  assert (Hpos : trace_only (Win32Window.get_position os self)).
  { unfold Win32Window.get_position, Win32Window._get_rect,
      BaseWindow._handle.
    apply trace_only_bind; [solve_trace_only|].
    intros [[[l t] r'] b]. solve_trace_only. }
  split_and!; try done; try apply Hshow.
  - unfold Win32Window.set_foreground, Win32Window.is_minimized,
      Win32Window._set_foreground, BaseWindow._handle.
    apply trace_only_bind; [solve_trace_only|]. intros minimized.
    apply trace_only_bind; [|intros; solve_trace_only].
    destruct minimized; [|solve_trace_only].
    apply trace_only_bind; [apply Hshow|intros; solve_trace_only].
  - unfold Win32Window.set_position, BaseWindow._handle.
    destruct (ltwh r) as [[[l t] w] h]. solve_trace_only.
  - unfold Win32Window.is_minimized, BaseWindow._handle. solve_trace_only.
  - unfold Win32Window._get_window_module, BaseWindow._handle,
      Win32Window.query_full_process_image_name,
      Win32Window.get_module_file_name_ex.
    solve_trace_only.
  - unfold Win32Window.get_containing_monitor.
    apply trace_only_bind; [done|]. intros position. cbv zeta.
    destruct (Win32Window.first_containing _ _ _ _ _ _); [solve_trace_only|].
    destruct (monitors !! 0%nat); solve_trace_only.
Qed.

(** X1.  The methods of [Win32Window] that query or control a window -
    [set_foreground], [get_position], [set_position], [is_minimized],
    [minimize], [maximize], [restore], [_get_window_module] and
    [get_containing_monitor] - never create or change a window object and
    never touch either registry, whatever the operating system answers
    and whether they return or raise; all they leave behind is native
    calls appended to the trace. *)
Theorem win32_methods_leave_objects_alone (os : OS) (self : addr)
    (r : Rectangle) (Monitor Point : Type) (monitors : list Monitor)
    (rectangle : Monitor → Rectangle) (center : Rectangle → Point)
    (contains : Rectangle → Point → bool) :
  trace_only (Win32Window.set_foreground os self) ∧
  trace_only (Win32Window.get_position os self) ∧
  trace_only (Win32Window.set_position os self r) ∧
  trace_only (Win32Window.is_minimized os self) ∧
  trace_only (Win32Window.minimize os self) ∧
  trace_only (Win32Window.maximize os self) ∧
  trace_only (Win32Window.restore os self) ∧
  trace_only (Win32Window._get_window_module os self) ∧
  trace_only (Win32Window.get_containing_monitor os Monitor Point monitors
                rectangle center contains self).
Proof.
  apply trace_only_methods.
Qed.

(** ** Every method changes the state by mutations *)

Lemma trace_only_mutation {A} (m : M A) σ :
  trace_only m → mutation σ (m σ).2.
Proof.
  intros Hm. destruct (Hm σ) as [(Hh & Hn & Hi) [t Ht]].
  assert ((m σ).2 = with_trace (λ t0, t0 ++ t) σ) as ->
    by (by apply pystate_eq).
  constructor.
Qed.

Lemma setattr_dangling upd a σ :
  heap σ !! a = None → setattr upd a σ = (Raise SystemError, σ).
Proof.
  intros Ha. unfold setattr.
  apply bind_Raise. unfold deref. by rewrite Ha.
Qed.

Lemma getattr_dangling {A} (field : object → option A) a σ :
  heap σ !! a = None → getattr field a σ = (Raise SystemError, σ).
Proof.
  intros Ha. unfold getattr.
  apply bind_Raise. unfold deref. by rewrite Ha.
Qed.

Lemma getattr_missing {A} (field : object → option A) a σ o :
  heap σ !! a = Some o → field o = None →
  getattr field a σ = (Raise AttributeError, σ).
Proof.
  intros Ha Hfield. unfold getattr.
  erewrite bind_Ok by (unfold deref; by rewrite Ha). by rewrite Hfield.
Qed.

Lemma _set_id_dangling a v σ :
  heap σ !! a = None → (BaseWindow._set_id a v σ).2 = σ.
Proof.
  intros Ha. unfold BaseWindow._set_id.
  destruct (isinstance_integer v); simpl; [|done].
  by erewrite bind_Raise by (by apply setattr_dangling).
Qed.

(** [_set_name] changes nothing when the name is not a string or the
    object is not a window that [__init__] has completed on. *)
Lemma _set_name_rejected a name σ :
  isinstance_string name = false ∨ heap σ !! a = None ∨
    (∃ o, heap σ !! a = Some o ∧ _names o = None) →
  raised (BaseWindow._set_name a name σ).1 ∧
  (BaseWindow._set_name a name σ).2 = σ.
Proof.
  unfold BaseWindow._set_name.
  destruct (isinstance_string name) eqn:Hname; simpl.
  - intros [?|[Ha|(o & Ha & Hnames)]]; [done| |].
    + by erewrite bind_Raise by (by apply getattr_dangling).
    + by erewrite bind_Raise by (by eapply getattr_missing).
  - done.
Qed.

Lemma execute_mutation s σ : rtc mutation σ (execute s σ).
Proof.
  destruct s as [id|a value|a name]; simpl.
  - destruct (isinstance_integer id) eqn:Hid.
    + rewrite new_integer by done. apply rtc_once. by constructor.
    + rewrite new_non_integer by done. apply rtc_once. constructor.
  - unfold BaseWindow.set_id.
    destruct (isinstance_integer value) eqn:Hvalue;
      [|by rewrite _set_id_non_integer].
    destruct (heap σ !! a) as [o|] eqn:Ha.
    + rewrite (_set_id_integer _ _ _ _ Ha Hvalue). apply rtc_once.
      by econstructor.
    + by rewrite _set_id_dangling.
  - destruct (heap σ !! a) as [o|] eqn:Ha;
      [|by rewrite (proj2 (_set_name_rejected a name σ (or_intror (or_introl Ha))))].
    destruct (_names o) as [names|] eqn:Hnames; last first.
    { rewrite (proj2 (_set_name_rejected a name σ
        (or_intror (or_intror (ex_intro _ o (conj Ha Hnames)))))). done. }
    destruct name as [| | | |n]; try done.
    rewrite (_set_name_Ok _ _ _ _ _ Ha Hnames). apply rtc_once.
    by econstructor.
Qed.

Lemma get_foreground_mutation os σ :
  rtc mutation σ (Win32Window.get_foreground os σ).2.
Proof.
  unfold Win32Window.get_foreground.
  eapply rtc_l; [apply (mutation_trace σ [Called GetForegroundWindow])|].
  unfold mbind, M_bind, bind. rewrite native_eq.
  destruct (os Z (trace σ) GetForegroundWindow) as [h|e]; [|done].
  unfold get. simpl.
  destruct (_windows_by_id σ !! h) as [w|]; [done|].
  rewrite Win32Window_new_integer. apply rtc_once. by constructor.
Qed.

Lemma enumerate_mutation handles argument σ :
  rtc mutation σ
    (Win32Window.enumerate
       (λ handle argument,
          window ← Win32Window.new (PyInt handle);
          mret (argument ++ [window]))
       handles argument σ).2.
Proof.
  revert argument σ. induction handles as [|h rest IH]; intros argument σ;
    [done|].
  simpl. erewrite bind_Ok; last first.
  { erewrite bind_Ok by apply Win32Window_new_integer. reflexivity. }
  eapply rtc_l; [|apply IH]. by constructor.
Qed.

Lemma get_all_windows_mutation os σ :
  rtc mutation σ (Win32Window.get_all_windows os σ).2.
Proof.
  unfold Win32Window.get_all_windows.
  eapply rtc_l; [apply (mutation_trace σ [Called EnumWindows])|].
  unfold mbind at 1. unfold M_bind, bind. rewrite native_eq.
  destruct (os (list Z) (trace σ) EnumWindows) as [handles|e]; [|done].
  apply enumerate_mutation.
Qed.

Lemma perform_mutation os a σ : rtc mutation σ (perform os a σ).
Proof.
  pose proof (trace_only_methods os) as Hframe.
  destruct a as [s| | |w|w|w r|w|w|w|w|w]; simpl;
    [apply execute_mutation | apply get_foreground_mutation
    | apply get_all_windows_mutation | ..];
    apply rtc_once, trace_only_mutation;
    apply (Hframe w (mkRectangle 0 0 0 0) unit unit [] (λ _, mkRectangle 0 0 0 0)
             (λ _, tt) (λ _ _, false)) ||
    apply (Hframe w r unit unit [] (λ _, mkRectangle 0 0 0 0)
             (λ _, tt) (λ _ _, false)).
Qed.

Lemma perform_all_mutation os program σ :
  rtc mutation σ (perform_all os program σ).
Proof.
  revert σ. induction program as [|a program IH]; intros σ; [done|].
  simpl. etrans; [apply perform_mutation|apply IH].
Qed.

(** ** What the mutations keep *)

Lemma lookup_alter_inv (f : object → object) a a' (l : list object) o' :
  alter f a l !! a' = Some o' →
  (a = a' ∧ ∃ o, l !! a = Some o ∧ o' = f o) ∨ (a ≠ a' ∧ l !! a' = Some o').
Proof.
  destruct (decide (a = a')) as [->|Hne].
  - rewrite list_lookup_alter_eq. destruct (l !! a') as [o|]; [|done].
    intros [= <-]. left. eauto.
  - rewrite list_lookup_alter_ne by done. eauto.
Qed.

Lemma lookup_alter_fwd (f : object → object) a a' (l : list object) o :
  l !! a' = Some o →
  alter f a l !! a' = Some (if decide (a = a') then f o else o).
Proof.
  intros Ho. destruct (decide (a = a')) as [->|Hne].
  - by rewrite list_lookup_alter_eq, Ho.
  - by rewrite list_lookup_alter_ne.
Qed.

Lemma lookup_snoc_inv (l : list object) x a o :
  (l ++ [x]) !! a = Some o → l !! a = Some o ∨ (a = length l ∧ o = x).
Proof.
  intros [?|[Hlen Hx]]%lookup_app_Some; [by left|right].
  apply list_lookup_singleton_Some in Hx as [Ha ->]. split; [lia|done].
Qed.

Lemma dict_set_int_insert v k a d :
  int_value v = Some k → dict_set_int v a d = <[k:=a]> d.
Proof. intros Hv. unfold dict_set_int. by rewrite Hv. Qed.

Lemma well_formed_empty : well_formed empty_state.
Proof. split_and!; intros ??; by rewrite ?lookup_empty. Qed.

Lemma mutation_well_formed σ σ' :
  mutation σ σ' → well_formed σ → well_formed σ'.
Proof.
  intros Hm (Hobj & Hid & Hname).
  destruct Hm as [σ t|σ v Hv|σ|σ a v o Ha Hv|σ a n o names Ha Hnames]; simpl.
  - done.
  - apply isinstance_integer_int_value in Hv as Hk. destruct Hk as [k Hk].
    split_and!; simpl.
    + intros a o [Ho|[-> ->]]%lookup_snoc_inv Hinit; [by eapply Hobj|].
      by exists v.
    + intros k' a. rewrite (dict_set_int_insert _ _ _ _ Hk).
      intros [[<- <-]|[_ Hold]]%lookup_insert_Some.
      * exists (initialised v ∅), v. split_and!; try done.
        by apply list_lookup_middle.
      * destruct (Hid _ _ Hold) as (o & v' & Ho & ? & ?). exists o, v'.
        split_and!; try done. by apply lookup_app_l_Some.
    + intros s a Hs. destruct (Hname _ _ Hs) as (o & names & Ho & ? & ?).
      exists o, names. split_and!; try done. by apply lookup_app_l_Some.
  - split_and!; simpl.
    + intros a o [Ho|[-> ->]]%lookup_snoc_inv Hinit; [by eapply Hobj|].
      by destruct Hinit.
    + intros k a Hk. destruct (Hid _ _ Hk) as (o & v' & Ho & ? & ?).
      exists o, v'. split_and!; try done. by apply lookup_app_l_Some.
    + intros s a Hs. destruct (Hname _ _ Hs) as (o & names & Ho & ? & ?).
      exists o, names. split_and!; try done. by apply lookup_app_l_Some.
  - apply isinstance_integer_int_value in Hv as Hk. destruct Hk as [k Hk].
    split_and!; simpl.
    + intros a' o' [[<- (o0 & Ho0 & ->)]|[_ Ho']]%lookup_alter_inv Hinit;
        [by exists v|by eapply Hobj].
    + intros k' a'. rewrite (dict_set_int_insert _ _ _ _ Hk).
      intros [[<- <-]|[_ Hold]]%lookup_insert_Some.
      * exists (set_id_attr v o), v. split_and!; try done.
        by rewrite list_lookup_alter_eq, Ha.
      * destruct (Hid _ _ Hold) as (o' & v' & Ho' & Hv' & ?).
        destruct (decide (a = a')) as [<-|Hne].
        -- exists (set_id_attr v o), v.
           split_and!; [by rewrite list_lookup_alter_eq, Ha|done|done].
        -- exists o', v'.
           split_and!; [by rewrite list_lookup_alter_ne|done|done].
    + intros s a' Hs. destruct (Hname _ _ Hs) as (o' & names & Ho' & Hn & ?).
      eexists _, names. split; [by apply lookup_alter_fwd|].
      destruct (decide (a = a')); simpl; eauto.
  - split_and!; simpl.
    + intros a' o' [[<- (o0 & Ho0 & ->)]|[_ Ho']]%lookup_alter_inv Hinit;
        [|by eapply Hobj].
      simpl. assert (o0 = o) as -> by congruence.
      apply (Hobj a o Ha). by rewrite Hnames.
    + intros k a' Hk. destruct (Hid _ _ Hk) as (o' & v' & Ho' & Hv' & ?).
      eexists _, v'. split; [by apply lookup_alter_fwd|].
      destruct (decide (a = a')); simpl; eauto.
    + intros s a'.
      intros [[<- <-]|[_ Hold]]%lookup_insert_Some.
      * exists (set_names_attr ({[n]} ∪ names) o), ({[n]} ∪ names).
        split_and!; [by rewrite list_lookup_alter_eq, Ha|done|set_solver].
      * destruct (Hname _ _ Hold) as (o' & names' & Ho' & Hn' & ?).
        destruct (decide (a = a')) as [<-|Hne].
        -- exists (set_names_attr ({[n]} ∪ names) o), ({[n]} ∪ names).
           split_and!; [by rewrite list_lookup_alter_eq, Ha|done|].
           assert (names' = names) as -> by congruence. set_solver.
        -- exists o', names'. split_and!; try done.
           by rewrite list_lookup_alter_ne.
Qed.

Lemma extends_refl σ : extends σ σ.
Proof.
  split_and!; try done.
  - intros a o Ho. exists o. split; [done|]. intros names Hn. by exists names.
  - exists []. by rewrite app_nil_r.
Qed.

Lemma extends_trans σ1 σ2 σ3 : extends σ1 σ2 → extends σ2 σ3 → extends σ1 σ3.
Proof.
  intros (Hi & Hn & Ho & [t Ht]) (Hi' & Hn' & Ho' & [t' Ht']).
  split_and!; [set_solver|set_solver| |].
  - intros a o Ha. destruct (Ho _ _ Ha) as (o2 & Ha2 & Hnames2).
    destruct (Ho' _ _ Ha2) as (o3 & Ha3 & Hnames3).
    exists o3. split; [done|]. intros names Hnames.
    destruct (Hnames2 _ Hnames) as (names2 & Hn2 & ?).
    destruct (Hnames3 _ Hn2) as (names3 & Hn3 & ?).
    exists names3. split; [done|set_solver].
  - exists (t ++ t'). by rewrite Ht', Ht, app_assoc.
Qed.

Lemma mutation_extends σ σ' : mutation σ σ' → extends σ σ'.
Proof.
  assert (Hkeep : ∀ σ0 : pystate, ∃ t, trace σ0 = trace σ0 ++ t)
    by (intros; exists []; by rewrite app_nil_r).
  assert (Hsnoc : ∀ (h : list object) x a o,
            h !! a = Some o →
            ∃ o', (h ++ [x]) !! a = Some o' ∧
                  ∀ names, _names o = Some names →
                           ∃ names', _names o' = Some names' ∧ names ⊆ names').
  { intros h x a o Ho. exists o. split; [by apply lookup_app_l_Some|].
    intros names Hn. by exists names. }
  intros Hm.
  destruct Hm as [σ t|σ v Hv|σ|σ a v o Ha Hv|σ a n o names Ha Hnames];
    split_and!; simpl; try done; try apply Hkeep; try (by apply Hsnoc).
  - intros a o Ho. exists o. split; [done|]. intros names Hn. by exists names.
  - by exists t.
  - unfold dict_set_int. destruct (int_value v); simpl; [|done].
    apply dom_insert_subseteq.
  - unfold dict_set_int. destruct (int_value v); simpl; [|done].
    apply dom_insert_subseteq.
  - intros a' o' Ho'. eexists. split; [by apply lookup_alter_fwd|].
    intros names Hn. exists names. split; [|done].
    by destruct (decide (a = a')).
  - apply dom_insert_subseteq.
  - intros a' o' Ho'. eexists. split; [by apply lookup_alter_fwd|].
    intros names' Hn. destruct (decide (a = a')) as [<-|Hne].
    + exists ({[n]} ∪ names). split; [done|].
      assert (o' = o) as -> by congruence.
      assert (names' = names) as -> by congruence. set_solver.
    + by exists names'.
Qed.

Lemma mutations_well_formed σ σ' :
  rtc mutation σ σ' → well_formed σ → well_formed σ'.
Proof. induction 1; eauto using mutation_well_formed. Qed.

Lemma mutations_extends σ σ' : rtc mutation σ σ' → extends σ σ'.
Proof.
  induction 1; [apply extends_refl|].
  eauto using extends_trans, mutation_extends.
Qed.

(** X2.  Whatever sequence of operations is run from the initial state -
    constructions, id and name assignments (accepted or rejected),
    [get_foreground], [get_all_windows] and the query and control methods
    of [Win32Window], against any operating system - the state stays
    consistent: every window that was constructed has an integer id,
    every handle in [_windows_by_id] designates an object whose id is an
    integer, and every name in [_windows_by_name] designates a window
    that carries that name. *)
Theorem registries_stay_well_formed (os : OS) (program : list action) :
  well_formed (perform_all os program empty_state).
Proof.
  eapply mutations_well_formed;
    [apply perform_all_mutation|apply well_formed_empty].
Qed.

(** X3.  Nothing is ever removed: after any sequence of operations, from
    any state, every handle and every name that was registered is still
    registered (no method unregisters a window, not even when its handle
    is reassigned), every object is still at its address, every window
    still has the names it had, and the calls made so far are a prefix
    of the trace. *)
Theorem registries_never_shrink (os : OS) (program : list action)
    (σ : pystate) :
  extends σ (perform_all os program σ).
Proof. apply mutations_extends, perform_all_mutation. Qed.

(** ** [get_foreground] *)

Section get_foreground.
Variable os : OS.

Lemma get_foreground_known σ h w :
  os Z (trace σ) GetForegroundWindow = Ok h →
  _windows_by_id σ !! h = Some w →
  Win32Window.get_foreground os σ
    = (Ok w, with_trace (λ t, t ++ [Called GetForegroundWindow]) σ).
Proof.
  intros Hfg Hw. unfold Win32Window.get_foreground.
  erewrite bind_Ok by (rewrite native_eq, Hfg; reflexivity).
  erewrite bind_Ok by reflexivity. simpl. by rewrite Hw.
Qed.

Lemma get_foreground_unknown σ h :
  os Z (trace σ) GetForegroundWindow = Ok h →
  _windows_by_id σ !! h = None →
  Win32Window.get_foreground os σ
    = (Ok (length (heap σ)),
       constructed (PyInt h)
         (with_trace (λ t, t ++ [Called GetForegroundWindow]) σ)).
Proof.
  intros Hfg Hw. unfold Win32Window.get_foreground.
  erewrite bind_Ok by (rewrite native_eq, Hfg; reflexivity).
  erewrite bind_Ok by reflexivity. simpl. rewrite Hw.
  by rewrite Win32Window_new_integer.
Qed.

(** X4.  [get_foreground] caches by handle.  When the operating system
    reports the handle [h], the call returns the window registered under
    [h] and constructs nothing, or - if no window is registered under
    [h] - constructs one window with id [h] and no name and registers it;
    either way the window returned is then registered under [h], and a
    second call for the same handle returns the very same object and
    changes no object and no registry. *)
Theorem get_foreground_caches_by_handle (σ : pystate) (h : Z) :
  os Z (trace σ) GetForegroundWindow = Ok h →
  os Z (trace σ ++ [Called GetForegroundWindow]) GetForegroundWindow = Ok h →
  let first := Win32Window.get_foreground os σ in
  let second := Win32Window.get_foreground os first.2 in
  ∃ w,
    first.1 = Ok w ∧
    _windows_by_id first.2 !! h = Some w ∧
    match _windows_by_id σ !! h with
    | Some known => w = known ∧ same_objects σ first.2
    | None =>
        w = length (heap σ) ∧
        heap first.2 = heap σ ++ [initialised (PyInt h) ∅] ∧
        _windows_by_id first.2 = <[h:=w]> (_windows_by_id σ) ∧
        _windows_by_name first.2 = _windows_by_name σ
    end ∧
    second.1 = Ok w ∧
    same_objects first.2 second.2.
Proof.
  intros Hfg1 Hfg2 first second. subst first second.
  destruct (_windows_by_id σ !! h) as [known|] eqn:Hh.
  - rewrite (get_foreground_known _ _ _ Hfg1 Hh). simpl.
    exists known. rewrite (get_foreground_known _ h known) by done.
    by split_and!.
  - rewrite (get_foreground_unknown _ _ Hfg1 Hh). simpl.
    exists (length (heap σ)).
    assert (Hnew : <[h:=length (heap σ)]> (_windows_by_id σ) !! h
              = Some (length (heap σ))) by by rewrite lookup_insert_eq.
    rewrite (get_foreground_known _ h (length (heap σ))); [|done|done].
    by split_and!.
Qed.

(** X5.  The handle registry is keyed by the handles a window was given,
    not by the handle it has.  After a window is constructed for [h] and
    its handle is then set to another integer [v], the window is
    registered under both keys, and a [get_foreground] for [h] returns
    this window - whose [handle] reads [v]. *)
Theorem get_foreground_ignores_reassignment (σ : pystate) (h k : Z)
    (v : pyval) :
  int_value v = Some k →
  let w := length (heap σ) in
  let σ1 := (Win32Window.new (PyInt h) σ).2 in
  let σ2 := (BaseWindow.set_handle w v σ1).2 in
  _windows_by_id σ2 !! h = Some w ∧
  _windows_by_id σ2 !! k = Some w ∧
  (os Z (trace σ2) GetForegroundWindow = Ok h →
   ∃ σ3, Win32Window.get_foreground os σ2 = (Ok w, σ3) ∧
         BaseWindow.handle w σ3 = (Ok v, σ3)).
Proof.
  intros Hv w σ1 σ2.
  assert (Hint : isinstance_integer v = true)
    by (apply isinstance_integer_int_value; by rewrite Hv).
  assert (Hw : heap (constructed (PyInt h) σ) !! w
            = Some (initialised (PyInt h) ∅))
    by (by apply list_lookup_middle).
  assert (Hσ2 : σ2 = with_by_id (dict_set_int v w)
                  (with_heap (alter (set_id_attr v) w)
                     (constructed (PyInt h) σ))).
  { subst σ2 σ1. rewrite Win32Window_new_integer. unfold BaseWindow.set_handle.
    simpl. by rewrite (_set_id_integer _ _ _ _ Hw Hint). }
  assert (Hh : _windows_by_id σ2 !! h = Some w).
  { rewrite Hσ2. simpl. rewrite (dict_set_int_insert _ _ _ _ Hv).
    destruct (decide (k = h)) as [->|Hne].
    - by rewrite lookup_insert_eq.
    - rewrite lookup_insert_ne by done. unfold dict_set_int. simpl.
      by rewrite lookup_insert_eq. }
  split_and!; [done| |].
  - rewrite Hσ2. simpl. rewrite (dict_set_int_insert _ _ _ _ Hv).
    by rewrite lookup_insert_eq.
  - intros Hfg. eexists. split; [by apply (get_foreground_known _ h)|].
    apply getattr_Ok with (o := set_id_attr v (initialised (PyInt h) ∅));
      [|done].
    rewrite Hσ2. simpl in *. by rewrite list_lookup_alter_eq, Hw.
Qed.

End get_foreground.

Lemma get_foreground_caches_by_handle_witness :
  ∃ w,
    (Win32Window.get_foreground (sample_os 0) empty_state).1 = Ok w ∧
    (Win32Window.get_foreground (sample_os 0)
       (Win32Window.get_foreground (sample_os 0) empty_state).2).1 = Ok w.
Proof.
  destruct (get_foreground_caches_by_handle (sample_os 0) empty_state 7
              eq_refl eq_refl) as (w & H1 & _ & _ & H2 & _).
  by exists w.
Defined.

Lemma get_foreground_ignores_reassignment_witness :
  ∃ σ3,
    Win32Window.get_foreground (sample_os 0)
      (BaseWindow.set_handle 0%nat (PyInt 9)
         (Win32Window.new (PyInt 7) empty_state).2).2 = (Ok 0%nat, σ3) ∧
    BaseWindow.handle 0%nat σ3 = (Ok (PyInt 9), σ3).
Proof.
  destruct (get_foreground_ignores_reassignment (sample_os 0) empty_state
              7 9 (PyInt 9) eq_refl) as (_ & _ & H).
  exact (H eq_refl).
Defined.

(** ** [get_all_windows] *)

Section get_all_windows.
Variable os : OS.

(** X6.  [get_all_windows] returns one window per enumerated handle, in
    the order of the enumeration and all distinct: the i-th window is an
    object that did not exist before, with the i-th handle as id and no
    name.  The windows that existed keep their place and their
    attributes, the name registry is untouched, and handles that were
    not enumerated stay registered as they were. *)
Theorem get_all_windows_wraps_each_handle (σ : pystate) (handles : list Z) :
  os (list Z) (trace σ) EnumWindows = Ok handles →
  let enumerated := Win32Window.get_all_windows os σ in
  ∃ windows,
    enumerated.1 = Ok windows ∧
    length windows = length handles ∧
    NoDup windows ∧
    (∀ i h, handles !! i = Some h →
       ∃ w, windows !! i = Some w ∧
            heap σ !! w = None ∧
            heap enumerated.2 !! w = Some (initialised (PyInt h) ∅)) ∧
    (∀ a o, heap σ !! a = Some o → heap enumerated.2 !! a = Some o) ∧
    _windows_by_name enumerated.2 = _windows_by_name σ ∧
    (∀ k, k ∉ handles →
       _windows_by_id enumerated.2 !! k = _windows_by_id σ !! k).
Proof.
  intros Henum enumerated. subst enumerated.
  rewrite (get_all_windows_eq _ _ _ Henum). simpl.
  exists (seq (length (heap σ)) (length handles)).
  split_and!; try done.
  - by rewrite length_seq.
  - apply NoDup_seq.
  - intros i h Hi. exists (length (heap σ) + i)%nat. split_and!.
    + apply lookup_seq. split; [done|]. by eapply lookup_lt_Some.
    + apply lookup_ge_None. lia.
    + rewrite lookup_app_r by lia.
      replace (length (heap σ) + i - length (heap σ))%nat with i by lia.
      by rewrite list_lookup_fmap, Hi.
  - intros a o Ho. by apply lookup_app_l_Some.
  - intros k Hk. by apply register_all_absent.
Qed.

(** X7.  [get_all_windows] never reuses a window: two enumerations in a
    row return lists with no object in common, even when the operating
    system reports the same handles both times. *)
Theorem get_all_windows_never_reuses (σ : pystate) (handles1 handles2 : list Z) :
  os (list Z) (trace σ) EnumWindows = Ok handles1 →
  os (list Z) (trace σ ++ [Called EnumWindows]) EnumWindows = Ok handles2 →
  let first := Win32Window.get_all_windows os σ in
  let second := Win32Window.get_all_windows os first.2 in
  ∃ windows1 windows2,
    first.1 = Ok windows1 ∧
    second.1 = Ok windows2 ∧
    length windows1 = length handles1 ∧
    length windows2 = length handles2 ∧
    ∀ w, w ∈ windows1 → w ∉ windows2.
Proof.
  intros Henum1 Henum2 first second. subst first second.
  rewrite (get_all_windows_eq _ _ _ Henum1). simpl.
  rewrite (get_all_windows_eq _ handles2) by done. simpl.
  eexists _, _. split_and!; try done; try by rewrite length_seq.
  intros w [_ Hlt]%elem_of_seq [Hge _]%elem_of_seq.
  rewrite length_app, length_fmap in Hge. lia.
Qed.

End get_all_windows.

Lemma get_all_windows_wraps_each_handle_witness :
  ∃ windows,
    (Win32Window.get_all_windows (sample_os 0) one_window).1 = Ok windows ∧
    length windows = 2%nat.
Proof.
  destruct (get_all_windows_wraps_each_handle (sample_os 0) one_window
              [7; 8] eq_refl) as (windows & H1 & H2 & _).
  by exists windows.
Defined.

Lemma get_all_windows_never_reuses_witness :
  ∃ windows1 windows2,
    (Win32Window.get_all_windows (sample_os 0) one_window).1 = Ok windows1 ∧
    (Win32Window.get_all_windows (sample_os 0)
       (Win32Window.get_all_windows (sample_os 0) one_window).2).1
      = Ok windows2 ∧
    ∀ w, w ∈ windows1 → w ∉ windows2.
Proof.
  destruct (get_all_windows_never_reuses (sample_os 0) one_window
              [7; 8] [7; 8] eq_refl eq_refl)
    as (windows1 & windows2 & H1 & H2 & _ & _ & H3).
  by exists windows1, windows2.
Defined.

(** ** More on names and ids *)

Lemma _get_name_empty set_iter w σ o :
  heap σ !! w = Some o →
  _names o = Some ∅ →
  BaseWindow._get_name set_iter w σ = (Ok PyNone, σ).
Proof.
  intros Ho Hnames. unfold BaseWindow._get_name.
  rewrite (bind_Ok _ _ _ _ _ (getattr_Ok _ _ _ _ _ Ho Hnames)).
  by rewrite bool_decide_eq_true_2.
Qed.

(** X8.  A window's [name] is [None] exactly as long as no name has been
    assigned to it: after its construction and any statements, reading
    [name] succeeds, gives [None] if none of the statements assigned it
    a name, and otherwise gives one of the names assigned. *)
Theorem name_is_None_until_named (set_iter : gset string → list string)
    (σ0 : pystate) (h : pyval) (program : list statement) :
  (∀ s, set_iter s ≡ₚ elements s) →
  isinstance_integer h = true →
  let w := length (heap σ0) in
  let σ := execute_all (Construct h :: program) σ0 in
  ∃ r,
    BaseWindow._get_name set_iter w σ = (Ok r, σ) ∧
    (r = PyNone ↔ names_assigned w program = ∅) ∧
    (∀ m, r = PyStr m → m ∈ names_assigned w program).
Proof.
  intros Hiter Hh w σ. subst σ. simpl. rewrite new_integer by done. simpl.
  destruct (execute_all_names program (constructed h σ0) w h ∅) as [v Hw].
  { simpl. by apply list_lookup_middle. }
  assert (names_assigned w program ∪ ∅ = names_assigned w program) as Hunion
    by set_solver.
  rewrite Hunion in Hw.
  destruct (decide (names_assigned w program = ∅)) as [Hempty|Hne].
  - exists PyNone. rewrite Hempty in Hw.
    rewrite (_get_name_empty _ _ _ _ Hw eq_refl). by split_and!.
  - destruct (_get_name_nonempty set_iter w _ _ _ Hiter Hw eq_refl Hne)
      as (m & Hm & Hin).
    exists (PyStr m). split_and!; [done|done|]. by intros m' [= <-].
Qed.

Lemma name_is_None_until_named_witness :
  ∃ r,
    BaseWindow._get_name elements 0%nat
      (execute_all [Construct (PyInt 7); AssignId 0%nat (PyInt 8)]
         empty_state)
    = (Ok r, execute_all [Construct (PyInt 7); AssignId 0%nat (PyInt 8)]
               empty_state) ∧
    (r = PyNone ↔ names_assigned 0%nat [AssignId 0%nat (PyInt 8)] = ∅).
Proof.
  destruct (name_is_None_until_named elements empty_state (PyInt 7)
              [AssignId 0%nat (PyInt 8)] (λ _, reflexivity _) eq_refl)
    as (r & H1 & H2 & _).
  by exists r.
Defined.

(** X9.  A name is not exclusive.  When the same name [n] is set on a
    window [w1] and then on another window [w2], the name registry maps
    [n] to [w2] alone, yet [w1] keeps [n] among its names; if [n] is the
    only name [w1] has, [w1.name] still reads [n]. *)
Theorem shared_name_goes_to_last_window (set_iter : gset string → list string)
    (σ : pystate) (w1 w2 : addr) (n : string) (o1 o2 : object)
    (names1 names2 : gset string) :
  (∀ s, set_iter s ≡ₚ elements s) →
  w1 ≠ w2 →
  heap σ !! w1 = Some o1 → _names o1 = Some names1 →
  heap σ !! w2 = Some o2 → _names o2 = Some names2 →
  let σ1 := (BaseWindow._set_name w1 (PyStr n) σ).2 in
  let σ2 := (BaseWindow._set_name w2 (PyStr n) σ1).2 in
  _windows_by_name σ1 !! n = Some w1 ∧
  _windows_by_name σ2 !! n = Some w2 ∧
  getattr _names w1 σ2 = (Ok ({[n]} ∪ names1), σ2) ∧
  getattr _names w2 σ2 = (Ok ({[n]} ∪ names2), σ2) ∧
  (names1 = ∅ → BaseWindow._get_name set_iter w1 σ2 = (Ok (PyStr n), σ2)).
Proof.
  intros Hiter Hne Ho1 Hn1 Ho2 Hn2 σ1 σ2. subst σ2 σ1.
  rewrite (_set_name_Ok _ _ _ _ _ Ho1 Hn1). simpl.
  erewrite _set_name_Ok; [|simpl; by rewrite list_lookup_alter_ne|done].
  match goal with |- context [(Ok tt, ?s).2] => set (σ2 := s) end.
  simpl.
  assert (H1 : heap σ2 !! w1 = Some (set_names_attr ({[n]} ∪ names1) o1)).
  { subst σ2. simpl. rewrite list_lookup_alter_ne by done.
    by rewrite list_lookup_alter_eq, Ho1. }
  assert (H2 : heap σ2 !! w2 = Some (set_names_attr ({[n]} ∪ names2) o2)).
  { subst σ2. simpl.
    rewrite list_lookup_alter_eq, list_lookup_alter_ne by done.
    by rewrite Ho2. }
  split_and!.
  - by rewrite lookup_insert_eq.
  - subst σ2. simpl. by rewrite lookup_insert_eq.
  - by apply (getattr_Ok _ _ _ _ _ H1).
  - by apply (getattr_Ok _ _ _ _ _ H2).
  - intros ->.
    destruct (_get_name_nonempty set_iter w1 _ _ _ Hiter H1 eq_refl)
      as (m & Hm & Hin); [set_solver|].
    rewrite Hm. do 3 f_equal. set_solver.
Qed.

Lemma shared_name_goes_to_last_window_witness :
  let σ := execute_all [Construct (PyInt 7); Construct (PyInt 8)] empty_state in
  let σ2 := (BaseWindow._set_name 1%nat (PyStr "main")
               (BaseWindow._set_name 0%nat (PyStr "main") σ).2).2 in
  _windows_by_name σ2 !! "main"%string = Some 1%nat ∧
  BaseWindow._get_name elements 0%nat σ2 = (Ok (PyStr "main"), σ2).
Proof.
  pose proof (shared_name_goes_to_last_window elements
    (execute_all [Construct (PyInt 7); Construct (PyInt 8)] empty_state)
    0%nat 1%nat "main" (initialised (PyInt 7) ∅) (initialised (PyInt 8) ∅)
    ∅ ∅ (λ _, reflexivity _)) as H.
  cbv zeta in H.
  destruct H as (_ & Hreg & _ & _ & Hname); [lia|done|done|done|done|].
  split; [exact Hreg|exact (Hname eq_refl)].
Defined.

Lemma name_assignment_local_aux (σ : pystate) (w : addr) (name : pyval) :
  let r := BaseWindow._set_name w name σ in
  (isinstance_string name = false → r = (Raise AssertionError, σ)) ∧
  _windows_by_id r.2 = _windows_by_id σ ∧
  trace r.2 = trace σ ∧
  (∀ a, a ≠ w → heap r.2 !! a = heap σ !! a) ∧
  (∀ a, (_id <$> heap r.2 !! a) = (_id <$> heap σ !! a)) ∧
  (∀ s, name ≠ PyStr s →
        _windows_by_name r.2 !! s = _windows_by_name σ !! s).
Proof.
  intros r. subst r. split.
  { intros Hname. unfold BaseWindow._set_name. by rewrite Hname. }
  assert (Hsame : (BaseWindow._set_name w name σ).2 = σ →
            _windows_by_id (BaseWindow._set_name w name σ).2
              = _windows_by_id σ ∧
            trace (BaseWindow._set_name w name σ).2 = trace σ ∧
            (∀ a, a ≠ w → heap (BaseWindow._set_name w name σ).2 !! a
                          = heap σ !! a) ∧
            (∀ a, (_id <$> heap (BaseWindow._set_name w name σ).2 !! a)
                  = (_id <$> heap σ !! a)) ∧
            (∀ s, name ≠ PyStr s →
                  _windows_by_name (BaseWindow._set_name w name σ).2 !! s
                  = _windows_by_name σ !! s))
    by (by intros ->).
  destruct (heap σ !! w) as [o|] eqn:Ho;
    [|apply Hsame, _set_name_rejected; auto].
  destruct (_names o) as [names|] eqn:Hnames;
    [|apply Hsame, _set_name_rejected; eauto].
  destruct name as [| | | |n];
    try (apply Hsame, _set_name_rejected; by left).
  rewrite (_set_name_Ok _ _ _ _ _ Ho Hnames). simpl. split_and!; try done.
  - intros a Ha. by rewrite list_lookup_alter_ne.
  - intros a. destruct (decide (w = a)) as [<-|Hne].
    + by rewrite list_lookup_alter_eq, Ho.
    + by rewrite list_lookup_alter_ne.
  - intros s Hs. rewrite lookup_insert_ne; [done|congruence].
Qed.

(** X10.  Assigning a name touches nothing but that window's names and
    the registry entry of that name.  A name that is not a string is
    refused with [AssertionError] and nothing changes at all; in every
    case the handle registry, the trace, every other object, every
    object's id and every other entry of the name registry are as
    before. *)
Theorem name_assignment_is_local (σ : pystate) (w : addr) (name : pyval) :
  let r := BaseWindow._set_name w name σ in
  (isinstance_string name = false → r = (Raise AssertionError, σ)) ∧
  _windows_by_id r.2 = _windows_by_id σ ∧
  trace r.2 = trace σ ∧
  (∀ a, a ≠ w → heap r.2 !! a = heap σ !! a) ∧
  (∀ a, (_id <$> heap r.2 !! a) = (_id <$> heap σ !! a)) ∧
  (∀ s, name ≠ PyStr s →
        _windows_by_name r.2 !! s = _windows_by_name σ !! s).
Proof. apply name_assignment_local_aux. Qed.

(** X11.  Assigning an id or handle touches nothing but that window's id
    and the registry entry of the new handle: the name registry, the
    trace, every other object, every object's names and every other
    entry of the handle registry - the one of the window's previous
    handle included - are as before. *)
Theorem id_assignment_is_local (σ : pystate) (w : addr) (v : pyval) :
  let r := BaseWindow._set_id w v σ in
  _windows_by_name r.2 = _windows_by_name σ ∧
  trace r.2 = trace σ ∧
  (∀ a, a ≠ w → heap r.2 !! a = heap σ !! a) ∧
  (∀ a, (_names <$> heap r.2 !! a) = (_names <$> heap σ !! a)) ∧
  (∀ k, int_value v ≠ Some k →
        _windows_by_id r.2 !! k = _windows_by_id σ !! k).
Proof.
  intros r. subst r.
  destruct (isinstance_integer v) eqn:Hv;
    [|by rewrite _set_id_non_integer].
  destruct (heap σ !! w) as [o|] eqn:Ho; [|by rewrite _set_id_dangling].
  rewrite (_set_id_integer _ _ _ _ Ho Hv). simpl. split_and!; try done.
  - intros a Ha. by rewrite list_lookup_alter_ne.
  - intros a. destruct (decide (w = a)) as [<-|Hne].
    + by rewrite list_lookup_alter_eq, Ho.
    + by rewrite list_lookup_alter_ne.
  - intros k Hk. unfold dict_set_int.
    destruct (int_value v) as [k'|]; simpl; [|done].
    rewrite lookup_insert_ne; [done|congruence].
Qed.

Lemma name_assignment_is_local_witness :
  BaseWindow._set_name 0%nat (PyInt 3) one_window
    = (Raise AssertionError, one_window) ∧
  _windows_by_name
    (BaseWindow._set_name 0%nat (PyStr "main") one_window).2 !! "zed"%string
    = _windows_by_name one_window !! "zed"%string.
Proof.
  split.
  - by apply (name_assignment_is_local one_window 0%nat (PyInt 3)).
  - by apply (name_assignment_is_local one_window 0%nat (PyStr "main")).
Defined.

Lemma id_assignment_is_local_witness :
  _windows_by_id (BaseWindow._set_id 0%nat (PyInt 9) one_window).2 !! 7
    = _windows_by_id one_window !! 7.
Proof.
  by apply (id_assignment_is_local one_window 0%nat (PyInt 9)).
Defined.

(** ** The abstract class *)

(** X12.  A plain [BaseWindow] cannot be moved: [move] raises
    [NotImplementedError] and changes nothing, whatever the rectangle,
    the animation name and the registered movers - with a registered
    name the error comes from [get_position], before the mover is
    called. *)
Theorem base_window_cannot_move (window_movers : gmap string WindowMover)
    (self : addr) (r : Rectangle) (animate : pyval) (σ : pystate) :
  BaseWindow.move window_movers BaseWindow.class self r animate σ
    = (Raise NotImplementedError, σ).
Proof.
  unfold BaseWindow.move. destruct (negb (truthy animate)); [done|].
  by destruct (dict_get_str window_movers animate).
Qed.

(** ** Geometry *)

(** X13.  [set_position] and [get_position] are inverse to each other as
    far as the operating system cooperates: if [MoveWindow] returns and
    [GetWindowRect] then reports the edges of the rectangle that was set
    (left, top, left + width, top + height), reading the position back
    gives exactly that rectangle.  The two methods make these two native
    calls and no other, [MoveWindow] with the repaint flag set. *)
Theorem position_round_trip (os : OS) (self : addr) (σ : pystate)
    (o : object) (h : pyval) (r : Rectangle) :
  heap σ !! self = Some o →
  _id o = Some h →
  let moved := Called (MoveWindow h (x1 r) (y1 r) (dx r) (dy r) 1) in
  os unit (trace σ) (MoveWindow h (x1 r) (y1 r) (dx r) (dy r) 1) = Ok tt →
  os _ (trace σ ++ [moved]) (GetWindowRect h)
    = Ok (x1 r, y1 r, x1 r + dx r, y1 r + dy r) →
  (Win32Window.set_position os self r;; Win32Window.get_position os self) σ
    = (Ok r, with_trace (λ t, t ++ [moved; Called (GetWindowRect h)]) σ).
Proof.
  intros Ho Hh moved Hmove Hrect.
  assert (Hself : ∀ f, BaseWindow._handle self (with_trace f σ)
            = (Ok h, with_trace f σ))
    by (intros f; by apply _handle_Ok with (o := o)).
  erewrite bind_Ok; last first.
  { unfold Win32Window.set_position. simpl.
    rewrite (bind_Ok _ _ _ _ _ (_handle_Ok _ _ _ _ Ho Hh)).
    rewrite native_eq, Hmove. reflexivity. }
  unfold Win32Window.get_position, Win32Window._get_rect.
  erewrite bind_Ok; last first.
  { erewrite bind_Ok by apply Hself.
    rewrite native_eq. simpl trace. fold moved. rewrite Hrect. reflexivity. }
  unfold mret, M_ret, ret. f_equal.
  - f_equal. destruct r as [l t w h']. simpl. f_equal; lia.
  - apply pystate_eq; simpl; try done. by rewrite <- app_assoc.
Qed.

Lemma position_round_trip_witness :
  (Win32Window.set_position (sample_os 0) 0%nat (mkRectangle 10 20 100 60);;
   Win32Window.get_position (sample_os 0) 0%nat) one_window
  = (Ok (mkRectangle 10 20 100 60),
     with_trace
       (λ t, t ++ [Called (MoveWindow (PyInt 7) 10 20 100 60 1);
                   Called (GetWindowRect (PyInt 7))]) one_window).
Proof.
  exact (position_round_trip (sample_os 0) 0%nat one_window
           (initialised (PyInt 7) ∅) (PyInt 7) (mkRectangle 10 20 100 60)
           eq_refl eq_refl eq_refl eq_refl).
Defined.

(** ** The containing monitor, continued *)

Lemma first_containing_elem_of {Monitor Point : Type}
    (rectangle : Monitor → Rectangle) (contains : Rectangle → Point → bool)
    (c : Point) (ms : list Monitor) (m : Monitor) :
  Win32Window.first_containing Monitor Point rectangle contains c ms = Some m →
  m ∈ ms ∧ contains (rectangle m) c = true.
Proof.
  induction ms as [|m' ms IH]; simpl; [done|].
  destruct (contains (rectangle m') c) eqn:Hm'.
  - intros [= <-]. split; [by left|done].
  - intros [Hin ?]%IH. split; [by right|done].
Qed.

(** X14.  When the window's position can be read, [get_containing_monitor]
    raises exactly when the monitor list is empty ([IndexError]), and
    otherwise returns a monitor that is in the list; a monitor other
    than the first of the list is returned only if it contains the
    centre of the window.  With a single monitor, that monitor is
    always the answer. *)
Theorem containing_monitor_is_listed (os : OS) (Monitor Point : Type)
    (monitors : list Monitor) (rectangle : Monitor → Rectangle)
    (center : Rectangle → Point) (contains : Rectangle → Point → bool)
    (self : addr) (σ σ' : pystate) (position : Rectangle) :
  Win32Window.get_position os self σ = (Ok position, σ') →
  let result :=
    Win32Window.get_containing_monitor os Monitor Point monitors rectangle
      center contains self σ in
  (monitors = [] → result = (Raise IndexError, σ')) ∧
  (monitors ≠ [] →
     ∃ m, result = (Ok m, σ') ∧ m ∈ monitors ∧
          (head monitors = Some m ∨
           contains (rectangle m) (center position) = true)) ∧
  (∀ m, monitors = [m] → result = (Ok m, σ')).
Proof.
  intros Hpos result. subst result. unfold Win32Window.get_containing_monitor.
  rewrite (bind_Ok _ _ _ _ _ Hpos). cbv zeta.
  split_and!.
  - by intros ->.
  - intros Hne.
    destruct (Win32Window.first_containing _ _ _ _ _ _) as [m|] eqn:Hfirst.
    + apply first_containing_elem_of in Hfirst as [Hin Hm]. eauto.
    + destruct monitors as [|m ms]; [done|].
      exists m. split_and!; [done|by left|by left].
  - intros m ->. simpl. by destruct (contains (rectangle m) _).
Qed.

Lemma containing_monitor_is_listed_witness :
  Win32Window.get_containing_monitor (sample_os 0) Rectangle (Z * Z)
    [] (λ m, m) sample_center sample_contains 0%nat one_window
  = (Raise IndexError,
     (Win32Window.get_position (sample_os 0) 0%nat one_window).2) ∧
  Win32Window.get_containing_monitor (sample_os 0) Rectangle (Z * Z)
    [mkRectangle 100 0 100 100] (λ m, m) sample_center sample_contains
    0%nat one_window
  = (Ok (mkRectangle 100 0 100 100),
     (Win32Window.get_position (sample_os 0) 0%nat one_window).2).
Proof.
  split.
  - by apply (containing_monitor_is_listed (sample_os 0) Rectangle (Z * Z)
                [] (λ m, m) sample_center sample_contains 0%nat one_window _
                (mkRectangle 10 20 100 60) eq_refl).
  - by apply (containing_monitor_is_listed (sample_os 0) Rectangle (Z * Z)
                [mkRectangle 100 0 100 100] (λ m, m) sample_center
                sample_contains 0%nat one_window _
                (mkRectangle 10 20 100 60) eq_refl).
Defined.

(** ** The executable path, continued *)

Lemma length_fill_buffer n written : length (fill_buffer n written) = n.
Proof.
  unfold fill_buffer. rewrite length_take, length_app, length_replicate. lia.
Qed.

Lemma index_NUL_Some buffer i :
  index_NUL buffer = Some i →
  buffer !! i = Some NUL ∧ NUL ∉ take i buffer.
Proof.
  revert i. induction buffer as [|c rest IH]; intros i; simpl; [done|].
  destruct (N.eqb_spec c NUL) as [->|Hc].
  - intros [= <-]. split; [done|]. simpl. apply not_elem_of_nil.
  - destruct (index_NUL rest) as [j|]; simpl; [|done].
    intros [= <-]. destruct (IH j eq_refl) as [Hj Hnot].
    split; [done|]. simpl. apply not_elem_of_cons. split; [congruence|done].
Qed.

Lemma index_NUL_first (prefix rest : list wchar) :
  NUL ∉ prefix → index_NUL (prefix ++ NUL :: rest) = Some (length prefix).
Proof.
  induction prefix as [|c prefix IH]; simpl; [done|].
  intros [Hc Hprefix]%not_elem_of_cons.
  destruct (N.eqb_spec c NUL) as [->|_]; [done|]. by rewrite IH.
Qed.

Lemma fill_buffer_short n written :
  (length written < n)%nat →
  fill_buffer n written
    = written ++ NUL :: replicate (n - length written - 1) NUL.
Proof.
  intros Hlen. unfold fill_buffer.
  rewrite take_app_ge by lia. f_equal.
  rewrite take_replicate.
  replace (Nat.min (n - length written) n) with (S (n - length written - 1))
    by lia.
  done.
Qed.

(** A path that fits in the buffer with its terminator comes back as it
    was written. *)
Lemma path_result_written written :
  NUL ∉ written → (length written < 256)%nat →
  path_result (Ok written) = Ok written.
Proof.
  intros Hnul Hlen. unfold path_result. cbv zeta.
  rewrite fill_buffer_short by done.
  rewrite index_NUL_first by done.
  by rewrite take_app_length.
Qed.

(** What comes out of the buffer has no [NUL], is shorter than the
    buffer, and is the beginning of what was written. *)
Lemma path_result_clean answer buffer :
  path_result answer = Ok buffer →
  (NUL ∉ buffer) ∧ (length buffer < 256)%nat ∧
  (∃ written, answer = Ok written ∧ buffer `prefix_of` written).
Proof.
  destruct answer as [written|e]; [|done]. unfold path_result. cbv zeta.
  destruct (index_NUL (fill_buffer 256 written)) as [i|] eqn:Hi; [|done].
  intros [= <-]. apply index_NUL_Some in Hi as [Hi Hnot].
  assert (Hlt : (i < 256)%nat).
  { apply lookup_lt_Some in Hi. by rewrite length_fill_buffer in Hi. }
  split_and!; [done|rewrite length_take; lia|].
  exists written. split; [done|].
  assert (Hle : (i ≤ length written)%nat).
  { destruct (decide (i ≤ length written)%nat) as [|Hgt]; [done|].
    exfalso. apply Hnot.
    apply list_elem_of_lookup. exists (length written).
    rewrite lookup_take_lt by lia.
    rewrite fill_buffer_short.
    - by rewrite list_lookup_middle.
    - lia. }
  unfold fill_buffer. rewrite take_take.
  replace (Nat.min i 256) with i by lia.
  rewrite take_app_le by done. apply prefix_take.
Qed.

Section window_module_runs.
Variable os : OS.

(** Every run of [_get_window_module] in which the handle is opened. *)
Lemma _get_window_module_run self σ o h pid handle :
  heap σ !! self = Some o →
  _id o = Some h →
  os Z (trace σ) (GetWindowThreadProcessId h) = Ok pid →
  os Z (trace σ ++ [Called (GetWindowThreadProcessId h)])
    (OpenProcess 0x0410 0 pid) = Ok handle →
  let opened := trace σ ++ [Called (GetWindowThreadProcessId h);
                            Called (OpenProcess 0x0410 0 pid)] in
  let newer := Called (QueryFullProcessImageNameW handle 0 256) in
  let older := Called (GetModuleFileNameExW handle 0 256) in
  let body :=
    match path_result
            (os _ opened (QueryFullProcessImageNameW handle 0 256)) with
    | Ok buffer => (Ok buffer, [newer])
    | Raise e =>
        if is_Exception e
        then (path_result
                (os _ (opened ++ [newer]) (GetModuleFileNameExW handle 0 256)),
              [newer; older])
        else (Raise e, [newer])
    end in
  Win32Window._get_window_module os self σ
    = (match os Z (opened ++ body.2) (CloseHandle handle) with
       | Ok _ => body.1
       | Raise e => Raise e
       end,
       with_trace (λ _, opened ++ body.2 ++ [Called (CloseHandle handle)]) σ).
Proof.
  intros Ho Hh Hpid Hopen opened newer older. subst opened newer older.
  cbv zeta.
  rewrite (_get_window_module_opened _ _ _ _ _ _ _ Ho Hh Hpid Hopen).
  unfold try_finally, try_except_Exception.
  rewrite query_full_process_image_name_eq. simpl trace.
  destruct (path_result (os _ _ _)) as [buffer|e].
  - rewrite close_handle_eq. simpl.
    destruct (os Z _ (CloseHandle handle)); simpl; f_equal;
      apply pystate_eq; simpl; try done; by rewrite <- !app_assoc.
  - destruct (is_Exception e).
    + rewrite get_module_file_name_ex_eq. simpl trace.
      rewrite close_handle_eq. simpl. rewrite <- !app_assoc. simpl.
      destruct (os Z _ (CloseHandle handle)); simpl; f_equal;
        apply pystate_eq; simpl; try done; by rewrite <- !app_assoc.
    + rewrite close_handle_eq. simpl.
      destruct (os Z _ (CloseHandle handle)); simpl; f_equal;
        apply pystate_eq; simpl; try done; by rewrite <- !app_assoc.
Qed.

(** X15.  Round trip through the buffer: a path of fewer than 256
    characters, none of them NUL, that the operating system writes is
    what [_get_window_module] returns - whether it was written by the
    newer query, or by the older query after the newer one raised. *)
Theorem window_module_returns_written_path (self : addr) (σ : pystate)
    (o : object) (h : pyval) (pid handle : Z) (path : list wchar) :
  heap σ !! self = Some o →
  _id o = Some h →
  os Z (trace σ) (GetWindowThreadProcessId h) = Ok pid →
  os Z (trace σ ++ [Called (GetWindowThreadProcessId h)])
    (OpenProcess 0x0410 0 pid) = Ok handle →
  (∀ t, ∃ r, os Z t (CloseHandle handle) = Ok r) →
  NUL ∉ path →
  (length path < 256)%nat →
  let opened := trace σ ++ [Called (GetWindowThreadProcessId h);
                            Called (OpenProcess 0x0410 0 pid)] in
  let newer := Called (QueryFullProcessImageNameW handle 0 256) in
  let final := Win32Window._get_window_module os self σ in
  (os _ opened (QueryFullProcessImageNameW handle 0 256) = Ok path →
   final.1 = Ok path) ∧
  (∀ e, os _ opened (QueryFullProcessImageNameW handle 0 256) = Raise e →
        is_Exception e = true →
        os _ (opened ++ [newer]) (GetModuleFileNameExW handle 0 256)
          = Ok path →
        final.1 = Ok path).
Proof.
  intros Ho Hh Hpid Hopen Hclose Hnul Hlen opened newer final. subst final.
  rewrite (_get_window_module_run _ _ _ _ _ _ Ho Hh Hpid Hopen).
  fold opened newer. split.
  - intros ->. rewrite path_result_written by done. simpl.
    by destruct (Hclose (opened ++ [newer])) as [r ->].
  - intros e -> He Hlegacy. simpl. rewrite He, Hlegacy.
    rewrite path_result_written by done. simpl.
    match goal with
    | |- context [os Z ?t (CloseHandle handle)] =>
        by destruct (Hclose t) as [r ->]
    end.
Qed.

(** X16.  A [KeyboardInterrupt] or [SystemExit] during the newer query is
    not taken for a failure of the query: the older query is not tried,
    the handle is closed, and the interrupt propagates. *)
Theorem interrupt_is_not_swallowed (self : addr) (σ : pystate)
    (o : object) (h : pyval) (pid handle : Z) (e : exn) :
  heap σ !! self = Some o →
  _id o = Some h →
  os Z (trace σ) (GetWindowThreadProcessId h) = Ok pid →
  os Z (trace σ ++ [Called (GetWindowThreadProcessId h)])
    (OpenProcess 0x0410 0 pid) = Ok handle →
  let opened := trace σ ++ [Called (GetWindowThreadProcessId h);
                            Called (OpenProcess 0x0410 0 pid)] in
  let newer := Called (QueryFullProcessImageNameW handle 0 256) in
  let final := Win32Window._get_window_module os self σ in
  os _ opened (QueryFullProcessImageNameW handle 0 256) = Raise e →
  is_Exception e = false →
  raised final.1 ∧
  trace final.2 = opened ++ [newer; Called (CloseHandle handle)] ∧
  (∀ r, os Z (opened ++ [newer]) (CloseHandle handle) = Ok r →
        final.1 = Raise e).
Proof.
  intros Ho Hh Hpid Hopen opened newer final Hquery He. subst final.
  rewrite (_get_window_module_run _ _ _ _ _ _ Ho Hh Hpid Hopen).
  fold opened newer. rewrite Hquery. simpl. rewrite He. simpl.
  split_and!; [by destruct (os Z _ (CloseHandle handle))|done
              |by intros r ->].
Qed.

Lemma no_handle_aux (self : addr) (σ : pystate) (o : object)
    (h : pyval) (e : exn) :
  heap σ !! self = Some o →
  _id o = Some h →
  (os Z (trace σ) (GetWindowThreadProcessId h) = Raise e →
   Win32Window._get_window_module os self σ
     = (Raise e,
        with_trace (λ t, t ++ [Called (GetWindowThreadProcessId h)]) σ)) ∧
  (∀ pid,
     os Z (trace σ) (GetWindowThreadProcessId h) = Ok pid →
     os Z (trace σ ++ [Called (GetWindowThreadProcessId h)])
       (OpenProcess 0x0410 0 pid) = Raise e →
     Win32Window._get_window_module os self σ
       = (Raise e,
          with_trace (λ t, t ++ [Called (GetWindowThreadProcessId h);
                                 Called (OpenProcess 0x0410 0 pid)]) σ)).
Proof.
  intros Ho Hh. unfold Win32Window._get_window_module.
  rewrite (bind_Ok _ _ _ _ _ (_handle_Ok _ _ _ _ Ho Hh)). split.
  - intros Hpid.
    by erewrite bind_Raise by (rewrite native_eq, Hpid; reflexivity).
  - intros pid Hpid Hopen.
    erewrite bind_Ok by (rewrite native_eq, Hpid; reflexivity).
    erewrite bind_Raise
      by (rewrite native_eq; simpl trace; rewrite Hopen; reflexivity).
    f_equal. apply pystate_eq; simpl; try done. by rewrite <- app_assoc.
Qed.

(** X17.  When no process handle is obtained - [GetWindowThreadProcessId]
    or [OpenProcess] raises - the exception propagates at once: no path
    query is made and [CloseHandle] is not called. *)
Theorem no_handle_nothing_to_close (self : addr) (σ : pystate) (o : object)
    (h : pyval) (e : exn) :
  heap σ !! self = Some o →
  _id o = Some h →
  (os Z (trace σ) (GetWindowThreadProcessId h) = Raise e →
   Win32Window._get_window_module os self σ
     = (Raise e,
        with_trace (λ t, t ++ [Called (GetWindowThreadProcessId h)]) σ)) ∧
  (∀ pid,
     os Z (trace σ) (GetWindowThreadProcessId h) = Ok pid →
     os Z (trace σ ++ [Called (GetWindowThreadProcessId h)])
       (OpenProcess 0x0410 0 pid) = Raise e →
     Win32Window._get_window_module os self σ
       = (Raise e,
          with_trace (λ t, t ++ [Called (GetWindowThreadProcessId h);
                                 Called (OpenProcess 0x0410 0 pid)]) σ)).
Proof. apply no_handle_aux. Qed.

(** X18.  Whatever the operating system does, a path that
    [_get_window_module] returns contains no NUL character and has fewer
    than 256 characters: a longer path is never returned whole. *)
Theorem window_module_path_is_clean (self : addr) (σ : pystate)
    (buffer : list wchar) :
  (Win32Window._get_window_module os self σ).1 = Ok buffer →
  (NUL ∉ buffer) ∧ (length buffer < 256)%nat.
Proof.
  destruct (heap σ !! self) as [o|] eqn:Ho; last first.
  { unfold Win32Window._get_window_module, BaseWindow._handle.
    by erewrite bind_Raise by (by apply getattr_dangling). }
  destruct (_id o) as [h|] eqn:Hh; last first.
  { unfold Win32Window._get_window_module, BaseWindow._handle.
    by erewrite bind_Raise by (by eapply getattr_missing). }
  destruct (os Z (trace σ) (GetWindowThreadProcessId h)) as [pid|e] eqn:Hpid;
    last first.
  { by rewrite (proj1 (no_handle_aux self σ o h e Ho Hh) Hpid). }
  destruct (os Z (trace σ ++ [Called (GetWindowThreadProcessId h)])
              (OpenProcess 0x0410 0 pid)) as [handle|e] eqn:Hopen;
    last first.
  { by rewrite (proj2 (no_handle_aux self σ o h e Ho Hh) pid Hpid Hopen). }
  rewrite (_get_window_module_run _ _ _ _ _ _ Ho Hh Hpid Hopen). simpl.
  destruct (os Z _ (CloseHandle handle)); [|done].
  destruct (path_result (os _ _ (QueryFullProcessImageNameW handle 0 256)))
    as [buffer'|e] eqn:Hmodern; simpl.
  - intros [= <-]. apply path_result_clean in Hmodern. tauto.
  - destruct (is_Exception e); simpl; [|done].
    intros Hlegacy. apply path_result_clean in Hlegacy. tauto.
Qed.

End window_module_runs.

Lemma window_module_returns_written_path_witness :
  (Win32Window._get_window_module (sample_os 0) 0%nat one_window).1
    = Ok [97; 46; 101; 120; 101]%N.
Proof.
  pose proof (window_module_returns_written_path (sample_os 0) 0%nat
                one_window (initialised (PyInt 7) ∅) (PyInt 7) 4242 88
                [97; 46; 101; 120; 101]%N eq_refl eq_refl eq_refl eq_refl
                (λ _, ex_intro _ 1 eq_refl)) as H.
  cbv zeta in H. destruct H as [_ Holder].
  - intros Hin. repeat (apply elem_of_cons in Hin as [Hin|Hin]; [done|]).
    by apply elem_of_nil in Hin.
  - simpl. lia.
  - exact (Holder AttributeError eq_refl eq_refl eq_refl).
Defined.

Lemma interrupt_is_not_swallowed_witness :
  let os := interrupted_os in
  (Win32Window._get_window_module os 0%nat one_window).1
    = Raise KeyboardInterrupt ∧
  trace (Win32Window._get_window_module os 0%nat one_window).2
    = [Called (GetWindowThreadProcessId (PyInt 7));
       Called (OpenProcess 0x0410 0 4242);
       Called (QueryFullProcessImageNameW 88 0 256);
       Called (CloseHandle 88)].
Proof.
  intros os.
  pose proof (interrupt_is_not_swallowed os 0%nat one_window
                (initialised (PyInt 7) ∅) (PyInt 7) 4242 88 KeyboardInterrupt
                eq_refl eq_refl eq_refl eq_refl) as H.
  cbv zeta in H. destruct (H eq_refl eq_refl) as (_ & Htrace & Hresult).
  split; [exact (Hresult 1 eq_refl)|exact Htrace].
Defined.

Lemma no_handle_nothing_to_close_witness :
  let os := denying_os in
  Win32Window._get_window_module os 0%nat one_window
    = (Raise (OSError 5),
       with_trace (λ t, t ++ [Called (GetWindowThreadProcessId (PyInt 7));
                              Called (OpenProcess 0x0410 0 4242)])
         one_window).
Proof.
  intros os.
  exact (proj2 (no_handle_nothing_to_close os 0%nat one_window
                  (initialised (PyInt 7) ∅) (PyInt 7) (OSError 5)
                  eq_refl eq_refl) 4242 eq_refl eq_refl).
Defined.

Lemma window_module_path_is_clean_witness :
  (NUL ∉ [97; 46; 101; 120; 101]%N) ∧
  (length [97; 46; 101; 120; 101]%N < 256)%nat.
Proof.
  exact (window_module_path_is_clean (sample_os 0) 0%nat one_window
           [97; 46; 101; 120; 101]%N eq_refl).
Defined.

(** ** The id of a window over time *)

Lemma execute_id s σ w v names :
  heap σ !! w = Some (initialised v names) →
  ∃ names', heap (execute s σ) !! w
            = Some (initialised (last_id_assigned w [s] v) names').
Proof.
  intros Hw. destruct s as [id|a value|a name]; simpl.
  - exists names. destruct (isinstance_integer id) eqn:Hid.
    + rewrite new_integer by done. simpl. by apply lookup_app_l_Some.
    + rewrite new_non_integer by done. simpl. by apply lookup_app_l_Some.
  - exists names. unfold BaseWindow.set_id.
    destruct (decide (a = w)) as [->|Hne].
    + destruct (isinstance_integer value) eqn:Hvalue.
      * rewrite (_set_id_integer _ _ _ _ Hw Hvalue). simpl.
        by rewrite list_lookup_alter_eq, Hw.
      * by rewrite _set_id_non_integer.
    + destruct (isinstance_integer value) eqn:Hvalue;
        [|by rewrite _set_id_non_integer].
      destruct (heap σ !! a) as [o|] eqn:Ha; [|by rewrite _set_id_dangling].
      rewrite (_set_id_integer _ _ _ _ Ha Hvalue). simpl.
      by rewrite list_lookup_alter_ne.
  - destruct (name_assignment_local_aux σ a name) as (_ & _ & _ & _ & Hids & _).
    specialize (Hids w). rewrite Hw in Hids. simpl in Hids.
    destruct (heap (BaseWindow._set_name a name σ).2 !! w) as [o'|] eqn:Ho';
      [|done].
    simpl in Hids. injection Hids as Hid.
    destruct (execute_names (AssignName a name) σ w v names Hw) as [v' Hv'].
    simpl in Hv'. rewrite Ho' in Hv'. injection Hv' as ->. simpl in Hid.
    injection Hid as ->. eauto.
Qed.

Lemma last_id_assigned_cons w s program v :
  last_id_assigned w (s :: program) v
    = last_id_assigned w program (last_id_assigned w [s] v).
Proof.
  destruct s as [|a value|]; simpl; try done. by destruct (decide (a = w)).
Qed.

Lemma execute_all_id program σ w v names :
  heap σ !! w = Some (initialised v names) →
  ∃ names', heap (execute_all program σ) !! w
            = Some (initialised (last_id_assigned w program v) names').
Proof.
  revert σ v names. induction program as [|s program IH]; intros σ v names Hw.
  - by exists names.
  - change (execute_all (s :: program) σ)
      with (execute_all program (execute s σ)).
    destruct (execute_id s σ w v names Hw) as [names1 H1].
    destruct (IH _ _ _ H1) as [names2 H2]. exists names2.
    by rewrite H2, (last_id_assigned_cons w s program).
Qed.

Lemma last_id_assigned_integer w program v :
  isinstance_integer v = true →
  isinstance_integer (last_id_assigned w program v) = true.
Proof.
  revert v. induction program as [|[|a value|] program IH]; intros v Hv;
    simpl; auto.
  destruct (decide (a = w)); auto.
  apply IH. by destruct (isinstance_integer value) eqn:?.
Qed.

(** X19.  The id of a window is the last integer that was assigned to
    it.  After its construction with [h] and any statements, reading
    [id] gives the value of the last accepted assignment to that window,
    or [h] if there was none: rejected assignments, assignments to other
    windows, name assignments and further constructions (with the same
    handle or another) do not change it.  It is always an integer. *)
Theorem id_is_last_integer_assigned (σ0 : pystate) (h : pyval)
    (program : list statement) :
  isinstance_integer h = true →
  let w := length (heap σ0) in
  let σ := execute_all (Construct h :: program) σ0 in
  BaseWindow.id w σ = (Ok (last_id_assigned w program h), σ) ∧
  isinstance_integer (last_id_assigned w program h) = true.
Proof.
  intros Hh w σ. subst σ. simpl. rewrite new_integer by done. simpl.
  destruct (execute_all_id program (constructed h σ0) w h ∅) as [names Hw].
  { simpl. by apply list_lookup_middle. }
  split; [|by apply last_id_assigned_integer].
  by apply (getattr_Ok _ _ _ _ _ Hw).
Qed.

Lemma id_is_last_integer_assigned_witness :
  BaseWindow.id 0%nat
    (execute_all [Construct (PyInt 7); AssignId 0%nat (PyInt 8);
                  AssignId 0%nat (PyStr "nine"); Construct (PyInt 7)]
       empty_state)
  = (Ok (PyInt 8),
     execute_all [Construct (PyInt 7); AssignId 0%nat (PyInt 8);
                  AssignId 0%nat (PyStr "nine"); Construct (PyInt 7)]
       empty_state).
Proof.
  exact (proj1 (id_is_last_integer_assigned empty_state (PyInt 7)
                  [AssignId 0%nat (PyInt 8); AssignId 0%nat (PyStr "nine");
                   Construct (PyInt 7)] eq_refl)).
Defined.


